(** * Verification of the database backup tool (wussh/backup-tool)

    The development embeds, in this order,
    - the Go library functions the program relies on (package [errors]/[fmt]
      error values, [time] formatting and monotonic durations,
      [path/filepath.Join], [strings.Fields]);
    - the domain entities of [internal/domain/entity.go];
    - the effects of the program as a tree of calls ([Prog]) that is run
      against an arbitrary environment ([Oracle]);
    - the infrastructure adapter [BackupRepositoryImpl]
      ([internal/infrastructure/backup_repository.go]);
    - the use case [internal/usecase/backup_usecase.go], written against the
      [domain.BackupRepository] port, and its wiring to the adapter;
    and then states and proves the properties of the backup execution
    matrix. *)

From Stdlib Require Import String Ascii List ZArith Lia Bool.
Import ListNotations.

Local Open Scope string_scope.
Local Open Scope Z_scope.

(* ===================================================================== *)
(** ** Packages unicode/utf8 and unicode *)

Module utf8.

Definition byte (c : ascii) : Z := Z.of_nat (nat_of_ascii c).

Definition RuneError : Z := 0xFFFD.

Definition between (lo hi b : Z) : bool := (lo <=? b) && (b <=? hi).

(** The table [first]: for a leading byte that starts a multi-byte
    sequence, the length of the sequence and the range accepted for the
    second byte. *)
Definition first (b0 : Z) : option (nat * (Z * Z)) :=
  if between 0xC2 0xDF b0 then Some (2%nat, (0x80, 0xBF))
  else if b0 =? 0xE0 then Some (3%nat, (0xA0, 0xBF))
  else if between 0xE1 0xEC b0 then Some (3%nat, (0x80, 0xBF))
  else if b0 =? 0xED then Some (3%nat, (0x80, 0x9F))
  else if between 0xEE 0xEF b0 then Some (3%nat, (0x80, 0xBF))
  else if b0 =? 0xF0 then Some (4%nat, (0x90, 0xBF))
  else if between 0xF1 0xF3 b0 then Some (4%nat, (0x80, 0xBF))
  else if b0 =? 0xF4 then Some (4%nat, (0x80, 0x8F))
  else None.

(** [utf8.DecodeRuneInString(s)] for a non-empty [s]: the first rune and
    its width in bytes; an invalid or truncated sequence is the rune
    [RuneError] of width 1. *)
Definition DecodeRuneInString (s : string) : Z * nat :=
  match s with
  | EmptyString => (RuneError, 0%nat)
  | String c0 rest =>
      let s0 := byte c0 in
      if s0 <? 0x80 then (s0, 1%nat)
      else
        match first s0 with
        | None => (RuneError, 1%nat)
        | Some (sz, (lo, hi)) =>
            if (String.length s <? sz)%nat then (RuneError, 1%nat)
            else
              match rest with
              | EmptyString => (RuneError, 1%nat)
              | String c1 rest1 =>
                  let s1 := byte c1 in
                  if negb (between lo hi s1) then (RuneError, 1%nat)
                  else if (sz <=? 2)%nat then
                    (Z.lor (Z.shiftl (Z.land s0 0x1F) 6) (Z.land s1 0x3F), 2%nat)
                  else
                    match rest1 with
                    | EmptyString => (RuneError, 1%nat)
                    | String c2 rest2 =>
                        let s2 := byte c2 in
                        if negb (between 0x80 0xBF s2) then (RuneError, 1%nat)
                        else if (sz <=? 3)%nat then
                          (Z.lor (Z.lor (Z.shiftl (Z.land s0 0x0F) 12)
                                        (Z.shiftl (Z.land s1 0x3F) 6))
                                 (Z.land s2 0x3F), 3%nat)
                        else
                          match rest2 with
                          | EmptyString => (RuneError, 1%nat)
                          | String c3 _ =>
                              let s3 := byte c3 in
                              if negb (between 0x80 0xBF s3) then (RuneError, 1%nat)
                              else
                                (Z.lor (Z.lor (Z.lor (Z.shiftl (Z.land s0 0x07) 18)
                                                     (Z.shiftl (Z.land s1 0x3F) 12))
                                              (Z.shiftl (Z.land s2 0x3F) 6))
                                       (Z.land s3 0x3F), 4%nat)
                          end
                    end
              end
        end
  end.

End utf8.

Module unicode.

(** [unicode.IsSpace(r)]: the Latin-1 spaces, then the other code points
    with the White_Space property. *)
Definition IsSpace (r : Z) : bool :=
  if r <=? 0xFF then
    utf8.between 0x09 0x0D r || (r =? 0x20) || (r =? 0x85) || (r =? 0xA0)
  else
    (r =? 0x1680) || utf8.between 0x2000 0x200A r || utf8.between 0x2028 0x2029 r
    || (r =? 0x202F) || (r =? 0x205F) || (r =? 0x3000).

End unicode.

(* ===================================================================== *)
(** ** Go strings

    A Go [string] is a sequence of bytes; [Stdlib]'s [string] (a list of
    8-bit [ascii]) is the same thing. *)

Module strings.

(** [strings.Contains(s, string(c))] for a single byte [c]. *)
Fixpoint ContainsByte (c : ascii) (s : string) : bool :=
  match s with
  | EmptyString => false
  | String d rest => Ascii.eqb c d || ContainsByte c rest
  end.

(** [strings.Join(elems, sep)]. *)
Fixpoint Join (elems : list string) (sep : string) : string :=
  match elems with
  | [] => ""
  | [e] => e
  | e :: rest => e ++ sep ++ Join rest sep
  end.

(** [strings.Split(s, "/")]: the elements between the separators; a
    string without separator is its own single element. *)
Fixpoint SplitSlash (s : string) : list string :=
  match s with
  | EmptyString => [""]
  | String c rest =>
      if Ascii.eqb c "/" then "" :: SplitSlash rest
      else match SplitSlash rest with
           | e :: es => String c e :: es
           | [] => [String c ""]
           end
  end.

(** The fields of [s], scanned rune by rune as [FieldsFunc] does.
    [scan skip sp s] returns the bytes of the field that [s] starts in
    (empty when [s] starts with white space) and the fields after it;
    [skip] is the number of bytes of the current rune still to be passed,
    and [sp] tells whether that rune is white space. *)
Fixpoint scan (skip : nat) (sp : bool) (s : string) : string * list string :=
  match s with
  | EmptyString => ("", [])
  | String c rest =>
      let '(isSp, skip') :=
        match skip with
        | S n => (sp, n)
        | O => let (r, size) := utf8.DecodeRuneInString s in
               (unicode.IsSpace r, Nat.pred size)
        end in
      let (cur, more) := scan skip' isSp rest in
      if isSp then ("", if String.eqb cur "" then more else cur :: more)
      else (String c cur, more)
  end.

(** [strings.Fields(s)]: the maximal runs of bytes of [s] that hold no
    white space, as defined by [unicode.IsSpace]. *)
Definition Fields (s : string) : list string :=
  let (cur, more) := scan 0 false s in
  if String.eqb cur "" then more else cur :: more.

End strings.

(* ===================================================================== *)
(** ** Go error values *)

Module errors.

(** The error values that occur in the program:
    - [sysError]: an error returned by package [os] or [os/exec]
      (a [*fs.PathError], an [*exec.ExitError], an [*exec.Error]), kept
      with its message;
    - [errorString]: the result of [fmt.Errorf] without a [%w] verb;
    - [wrapError]: the result of [fmt.Errorf] with a [%w] verb, which
      keeps the formatted message and the wrapped error. *)
Inductive error : Type :=
| sysError (msg : string)
| errorString (msg : string)
| wrapError (msg : string) (err : error).

(** The [Error()] method. *)
Definition Error (e : error) : string :=
  match e with
  | sysError msg => msg
  | errorString msg => msg
  | wrapError msg _ => msg
  end.

(** [errors.Unwrap]. *)
Definition Unwrap (e : error) : option error :=
  match e with
  | wrapError _ err => Some err
  | _ => None
  end.

(** [fmt.Errorf(prefix + "%w", err)]. *)
Definition Errorf_w (prefix : string) (err : error) : error :=
  wrapError (prefix ++ Error err) err.

(** [fmt.Errorf(prefix + "%s", s)]. *)
Definition Errorf_s (prefix : string) (s : string) : error :=
  errorString (prefix ++ s).

End errors.
Export errors.

(* ===================================================================== *)
(** ** Package time: layouts and monotonic durations *)

Module time.

(** The calendar view of a [time.Time], as [t.Date()] and [t.Clock()]
    return it. *)
Record Time : Type := mkTime {
  Year : Z; Month : Z; Day : Z; Hour : Z; Minute : Z; Second : Z
}.

Definition digit (d : Z) : ascii := ascii_of_nat (48 + Z.to_nat d).

(** The decimal digits of [u], most significant first, by repeated
    division as in the slow path of [appendInt]. *)
Fixpoint digits (fuel : nat) (u : Z) (acc : string) : string :=
  match fuel with
  | O => acc
  | S fuel' =>
      let acc' := String (digit (u mod 10)) acc in
      if u / 10 =? 0 then acc' else digits fuel' (u / 10) acc'
  end.

Fixpoint zeros (n : nat) : string :=
  match n with O => "" | S n' => String "0" (zeros n') end.

(** [appendInt(b, x, width)]: the sign, then the decimal digits padded
    with zeros to [width]; the two- and four-digit fields have their own
    fast paths. *)
Definition appendInt (x : Z) (width : Z) : string :=
  let u := Z.abs x in
  let sign := if x <? 0 then "-" else "" in
  if (width =? 2) && (u <? 100) then
    sign ++ String (digit (u / 10)) (String (digit (u mod 10)) "")
  else if (width =? 4) && (u <? 10000) then
    sign ++ String (digit (u / 100 / 10)) (String (digit (u / 100 mod 10))
           (String (digit (u mod 100 / 10)) (String (digit (u mod 100 mod 10)) "")))
  else
    let ds := digits (S (Z.to_nat (Z.log2 u))) u "" in
    sign ++ zeros (Z.to_nat width - String.length ds) ++ ds.

(** [t.Format(layout)] for layouts made of literal bytes and of the
    reference-time chunks [2006] (year), [01] (month), [02] (day of the
    month), [15] (hour), [04] (minute) and [05] (second): these are the
    chunks of the layouts the program uses, and the branches of
    [nextStdChunk] for them.  [skip] counts the bytes of a chunk that are
    still to be passed over. *)
Fixpoint FormatFrom (t : Time) (skip : nat) (layout : string) : string :=
  match layout with
  | EmptyString => ""
  | String c rest =>
      match skip with
      | S n => FormatFrom t n rest
      | O =>
          if prefix "2006" layout then appendInt (Year t) 4 ++ FormatFrom t 3 rest
          else if prefix "01" layout then appendInt (Month t) 2 ++ FormatFrom t 1 rest
          else if prefix "02" layout then appendInt (Day t) 2 ++ FormatFrom t 1 rest
          else if prefix "04" layout then appendInt (Minute t) 2 ++ FormatFrom t 1 rest
          else if prefix "05" layout then appendInt (Second t) 2 ++ FormatFrom t 1 rest
          else if prefix "15" layout then appendInt (Hour t) 2 ++ FormatFrom t 1 rest
          else String c (FormatFrom t 0 rest)
      end
  end.

Definition Format (t : Time) (layout : string) : string := FormatFrom t 0 layout.

(** A [time.Duration]: a signed 64-bit count of nanoseconds. *)
Definition Duration := Z.

Definition maxDuration : Duration := 2 ^ 63 - 1.
Definition minDuration : Duration := - 2 ^ 63.

(** The value of a 64-bit signed integer after wrap-around. *)
Definition wrap64 (z : Z) : Z := (z + 2 ^ 63) mod 2 ^ 64 - 2 ^ 63.

(** [subMono(t, u)]: the difference of two monotonic clock readings,
    saturated when it does not fit a [Duration]. *)
Definition subMono (t u : Z) : Duration :=
  let d := wrap64 (t - u) in
  if (d <? 0) && (t >? u) then maxDuration
  else if (d >? 0) && (t <? u) then minDuration
  else d.

End time.

(* ===================================================================== *)
(** ** Package path/filepath (Unix) *)

Module filepath.

(** One step of [Clean]'s loop, on a whole path element.  [out] holds the
    elements written so far, last one first.  An empty element and [.] are
    dropped; [..] removes the last real element, or, when there is none to
    remove, is kept in a relative path and dropped in a rooted one. *)
Definition cleanStep (rooted : bool) (out : list string) (elem : string)
  : list string :=
  if String.eqb elem "" || String.eqb elem "." then out
  else if String.eqb elem ".." then
    match out with
    | top :: below => if String.eqb top ".." then ".." :: out else below
    | [] => if rooted then [] else [".."]
    end
  else elem :: out.

(** [filepath.Clean(path)]: the shortest path equivalent to [path] by
    purely lexical processing. *)
Definition Clean (path : string) : string :=
  if String.eqb path "" then "."
  else
    let rooted := prefix "/" path in
    let out := fold_left (cleanStep rooted) (strings.SplitSlash path) [] in
    let body := strings.Join (rev out) "/" in
    let cleaned := if rooted then "/" ++ body else body in
    if String.eqb cleaned "" then "." else cleaned.

(** [filepath.Join(elem...)]: the elements from the first non-empty one
    on, separated by slashes, then cleaned. *)
Fixpoint Join (elem : list string) : string :=
  match elem with
  | [] => ""
  | e :: rest => if String.eqb e "" then Join rest
                 else Clean (strings.Join elem "/")
  end.

(** [filepath.Base(path)]: the last element of [path], trailing slashes
    removed; [.] for the empty path and [/] for a path of slashes only. *)
Definition Base (path : string) : string :=
  if String.eqb path "" then "."
  else last (filter (fun e => negb (String.eqb e "")) (strings.SplitSlash path)) "/".

End filepath.


(* ===================================================================== *)
(** ** Domain entities ([internal/domain/entity.go]) *)

Module domain.

(** [type DatabaseType string] *)
Definition DatabaseType := string.

Definition DatabaseTypePostgres : DatabaseType := "postgres".
Definition DatabaseTypeMySQL : DatabaseType := "mysql".
Definition DatabaseTypeMariaDB : DatabaseType := "mariadb".
Definition DatabaseTypeMongoDB : DatabaseType := "mongodb".

(** [type BackupMethod string] *)
Definition BackupMethod := string.

Definition BackupMethodDockerRun : BackupMethod := "docker-run".
Definition BackupMethodDockerExec : BackupMethod := "docker-exec".
Definition BackupMethodKubectlExec : BackupMethod := "kubectl-exec".

Record DatabaseConfig : Type := mkDatabaseConfig {
  Type_ : DatabaseType;
  Host : string;
  Port : Z;
  User : string;
  Password : string;
  Database : string;
  Version : string;
  Container : string;
  Pod : string
}.

Record BackupConfig : Type := mkBackupConfig {
  Method : BackupMethod;
  Timestamp : time.Time;
  BackupDir : string;
  TempDir : string;
  K8sNamespace : string;
  Databases : list DatabaseConfig
}.

Record BackupResult : Type := mkBackupResult {
  DatabaseType_ : DatabaseType;
  Database_ : string;
  Success : bool;
  BackupPath : string;
  Size : string;
  Error_ : option error;
  Duration_ : time.Duration
}.

(** Assignments to the fields of a [BackupResult] variable. *)
Definition set_Error (r : BackupResult) (e : option error) : BackupResult :=
  mkBackupResult (DatabaseType_ r) (Database_ r) (Success r) (BackupPath r)
                 (Size r) e (Duration_ r).
Definition set_Duration (r : BackupResult) (d : time.Duration) : BackupResult :=
  mkBackupResult (DatabaseType_ r) (Database_ r) (Success r) (BackupPath r)
                 (Size r) (Error_ r) d.
Definition set_BackupPath (r : BackupResult) (p : string) : BackupResult :=
  mkBackupResult (DatabaseType_ r) (Database_ r) (Success r) p
                 (Size r) (Error_ r) (Duration_ r).
Definition set_Size (r : BackupResult) (s : string) : BackupResult :=
  mkBackupResult (DatabaseType_ r) (Database_ r) (Success r) (BackupPath r)
                 s (Error_ r) (Duration_ r).
Definition set_Success (r : BackupResult) (b : bool) : BackupResult :=
  mkBackupResult (DatabaseType_ r) (Database_ r) b (BackupPath r)
                 (Size r) (Error_ r) (Duration_ r).

(** [func (dt DatabaseType) IsValid() bool] *)
Definition DatabaseType_IsValid (dt : DatabaseType) : bool :=
  String.eqb dt DatabaseTypePostgres || String.eqb dt DatabaseTypeMySQL
  || String.eqb dt DatabaseTypeMariaDB || String.eqb dt DatabaseTypeMongoDB.

(** [func (bm BackupMethod) IsValid() bool] *)
Definition BackupMethod_IsValid (bm : BackupMethod) : bool :=
  String.eqb bm BackupMethodDockerRun || String.eqb bm BackupMethodDockerExec
  || String.eqb bm BackupMethodKubectlExec.

(** [func (dt DatabaseType) String() string] *)
Definition DatabaseType_String (dt : DatabaseType) : string := dt.

End domain.
Import domain.

(* ===================================================================== *)
(** ** Effects: calls, programs and environments *)

(** Every interaction of the program with the outside: the packages [time],
    [os] and [os/exec], the [domain.OutputService] port and the
    [domain.BackupRepository] port. *)
Inductive Call : Type :=
| TimeNow
| OsMkdirAll (path : string) (perm : Z)
| OsGetwd
| OsWriteFile (name : string) (data : string) (perm : Z)
| CmdOutput (argv : list string)
| CmdRun (argv : list string)
| PrintBackupStart (dbType : DatabaseType) (config : DatabaseConfig) (method : BackupMethod)
| PrintBackupResult (result : BackupResult)
| RepoBackupPostgres (config : DatabaseConfig) (method : BackupMethod) (backupPath namespace : string)
| RepoBackupMySQL (config : DatabaseConfig) (method : BackupMethod) (backupPath namespace : string)
| RepoBackupMariaDB (config : DatabaseConfig) (method : BackupMethod) (backupPath namespace : string)
| RepoBackupMongoDB (config : DatabaseConfig) (method : BackupMethod) (backupPath namespace tempDir : string)
| RepoGetFileSize (path : string) (isDirectory : bool).

(** What a call returns.  [TimeNow] returns the reading of the monotonic
    clock in nanoseconds; [CmdOutput argv] is
    [exec.Command(argv...).Output()] and [CmdRun argv] is
    [exec.Command(argv...).Run()]. *)
Definition Resp (c : Call) : Type :=
  match c with
  | TimeNow => Z
  | OsMkdirAll _ _ => option error
  | OsGetwd => (string * option error)%type
  | OsWriteFile _ _ _ => option error
  | CmdOutput _ => (string * option error)%type
  | CmdRun _ => option error
  | PrintBackupStart _ _ _ => unit
  | PrintBackupResult _ => unit
  | RepoBackupPostgres _ _ _ _ => option error
  | RepoBackupMySQL _ _ _ _ => option error
  | RepoBackupMariaDB _ _ _ _ => option error
  | RepoBackupMongoDB _ _ _ _ _ => option error
  | RepoGetFileSize _ _ => (string * option error)%type
  end.

(** A program is a tree: it returns, or makes a call and goes on with the
    answer. *)
Inductive Prog (A : Type) : Type :=
| Ret (a : A)
| Do (c : Call) (k : Resp c -> Prog A).

Arguments Ret {A} a.
Arguments Do {A} c k.

Fixpoint bind {A B : Type} (p : Prog A) (f : A -> Prog B) : Prog B :=
  match p with
  | Ret a => f a
  | Do c k => Do c (fun r => bind (k r) f)
  end.

Definition call (c : Call) : Prog (Resp c) := Do c (fun r => Ret r).

Declare Scope prog_scope.
Delimit Scope prog_scope with prog.
Notation "x <- p ;; q" := (bind p (fun x => q))
  (at level 61, p at next level, right associativity) : prog_scope.
Notation "p ;;; q" := (bind p (fun _ => q))
  (at level 61, right associativity) : prog_scope.
Local Open Scope prog_scope.

(** One call with its answer, as observed from outside. *)
Record Event : Type := Ev { ev_call : Call; ev_resp : Resp ev_call }.

(** The environment: it answers each call, knowing everything that
    happened before. *)
Definition Oracle : Type := list Event -> forall c : Call, Resp c.

(** [run o p h] runs [p] against [o] after the history [h]; it returns the
    result of [p] and the events of [p], oldest first. *)
Fixpoint run {A : Type} (o : Oracle) (p : Prog A) (h : list Event)
  : A * list Event :=
  match p with
  | Ret a => (a, [])
  | Do c k =>
      let r := o h c in
      let (a, tr) := run o (k r) (h ++ [Ev c r]) in
      (a, Ev c r :: tr)
  end.

(** The error, the output and the clock reading an event carries. *)
Definition ev_error (ev : Event) : option error :=
  match ev with
  | Ev c r =>
      match c return Resp c -> option error with
      | TimeNow => fun _ => None
      | OsMkdirAll _ _ => fun r => r
      | OsGetwd => fun r => snd r
      | OsWriteFile _ _ _ => fun r => r
      | CmdOutput _ => fun r => snd r
      | CmdRun _ => fun r => r
      | PrintBackupStart _ _ _ => fun _ => None
      | PrintBackupResult _ => fun _ => None
      | RepoBackupPostgres _ _ _ _ => fun r => r
      | RepoBackupMySQL _ _ _ _ => fun r => r
      | RepoBackupMariaDB _ _ _ _ => fun r => r
      | RepoBackupMongoDB _ _ _ _ _ => fun r => r
      | RepoGetFileSize _ _ => fun r => snd r
      end r
  end.

Definition ev_output (ev : Event) : string :=
  match ev with
  | Ev c r =>
      match c return Resp c -> string with
      | OsGetwd => fun r => fst r
      | CmdOutput _ => fun r => fst r
      | RepoGetFileSize _ _ => fun r => fst r
      | _ => fun _ => ""
      end r
  end.

(** The classes of calls the properties speak about. *)
Definition is_spawn (c : Call) : bool :=
  match c with CmdOutput _ | CmdRun _ => true | _ => false end.

Definition is_backup_call (c : Call) : bool :=
  match c with
  | RepoBackupPostgres _ _ _ _ | RepoBackupMySQL _ _ _ _
  | RepoBackupMariaDB _ _ _ _ | RepoBackupMongoDB _ _ _ _ _ => true
  | _ => false
  end.

Definition is_size_call (c : Call) : bool :=
  match c with RepoGetFileSize _ _ => true | _ => false end.

Definition is_repo_call (c : Call) : bool := is_backup_call c || is_size_call c.

Definition calls (tr : list Event) : list Call := map ev_call tr.

(** The readings of the clock in a trace, in order. *)
Fixpoint clock_readings (tr : list Event) : list Z :=
  match tr with
  | [] => []
  | Ev c r :: rest =>
      match c return Resp c -> list Z with
      | TimeNow => fun t => t :: clock_readings rest
      | _ => fun _ => clock_readings rest
      end r
  end.

(** A monotonic clock never goes back. *)
Fixpoint nondecreasing (l : list Z) : Prop :=
  match l with
  | [] => True
  | x :: rest => match rest with [] => True | y :: _ => x <= y end /\ nondecreasing rest
  end.

(* ===================================================================== *)
(** ** The infrastructure adapter
       ([internal/infrastructure/backup_repository.go]) *)

Module infrastructure.

(** File modes [0755] and [0644]. *)
Definition mode_0755 : Z := 493.
Definition mode_0644 : Z := 420.

(** [output, err := cmd.Output(); if err != nil { return
    fmt.Errorf(msg, err) }; return os.WriteFile(backupPath, output, 0644)]:
    the file-producing backups capture the standard output of the dump
    command and write it to the destination. *)
Definition dumpToFile (argv : list string) (failure : string) (backupPath : string)
  : Prog (option error) :=
  out <- call (CmdOutput argv) ;;
  match snd out with
  | Some err => Ret (Some (Errorf_w failure err))
  | None => call (OsWriteFile backupPath (fst out) mode_0644)
  end.

(** [BackupPostgres] *)
Definition BackupPostgres (config : DatabaseConfig) (method : BackupMethod)
           (backupPath namespace : string) : Prog (option error) :=
  wd <- call OsGetwd ;;
  let cwd := fst wd in
  if String.eqb method BackupMethodDockerRun then
    dumpToFile
      ["docker"; "run"; "--rm";
       "-e"; "PGPASSWORD=" ++ Password config;
       "-v"; cwd ++ "/backup/postgres:/backup";
       "postgres:" ++ Version config;
       "pg_dump"; "-h"; Host config; "-U"; User config; Database config]
      "docker run failed: " backupPath
  else if String.eqb method BackupMethodDockerExec then
    dumpToFile
      ["docker"; "exec"; Container config;
       "sh"; "-c";
       "PGPASSWORD='" ++ Password config ++ "' pg_dump -h localhost -U "
         ++ User config ++ " " ++ Database config]
      "docker exec failed: " backupPath
  else if String.eqb method BackupMethodKubectlExec then
    dumpToFile
      ["kubectl"; "exec"; "-n"; namespace; Pod config; "--";
       "sh"; "-c";
       "PGPASSWORD='" ++ Password config ++ "' pg_dump -h localhost -U "
         ++ User config ++ " " ++ Database config]
      "kubectl exec failed: " backupPath
  else
    Ret (Some (Errorf_s "unknown backup method: " method)).

(** The body shared, up to the image name, by [BackupMySQL] and
    [BackupMariaDB]. *)
Definition mysqldump (image : string) (config : DatabaseConfig) (method : BackupMethod)
           (backupPath namespace : string) : Prog (option error) :=
  wd <- call OsGetwd ;;
  let cwd := fst wd in
  if String.eqb method BackupMethodDockerRun then
    dumpToFile
      ["docker"; "run"; "--rm";
       "-v"; cwd ++ "/backup/" ++ image ++ ":/backup";
       image ++ ":" ++ Version config;
       "sh"; "-c";
       "mysqldump -h" ++ Host config ++ " -u" ++ User config
         ++ " -p" ++ Password config ++ " " ++ Database config]
      "docker run failed: " backupPath
  else if String.eqb method BackupMethodDockerExec then
    dumpToFile
      ["docker"; "exec"; Container config;
       "sh"; "-c";
       "mysqldump -h localhost -u" ++ User config
         ++ " -p" ++ Password config ++ " " ++ Database config]
      "docker exec failed: " backupPath
  else if String.eqb method BackupMethodKubectlExec then
    dumpToFile
      ["kubectl"; "exec"; "-n"; namespace; Pod config; "--";
       "sh"; "-c";
       "mysqldump -h localhost -u" ++ User config
         ++ " -p" ++ Password config ++ " " ++ Database config]
      "kubectl exec failed: " backupPath
  else
    Ret (Some (Errorf_s "unknown backup method: " method)).

(** [BackupMySQL] *)
Definition BackupMySQL := mysqldump "mysql".

(** [BackupMariaDB] *)
Definition BackupMariaDB := mysqldump "mariadb".

(** The three commands of a MongoDB backup through [docker exec]:
    create the dump inside the container, copy it out, remove it. *)
Definition dockerCreate (config : DatabaseConfig) (tempDir timestamp : string) : list string :=
  ["docker"; "exec"; Container config;
   "mongodump"; "--host"; "localhost"; "--db"; Database config;
   "--out"; tempDir ++ "/" ++ timestamp].
Definition dockerCopy (config : DatabaseConfig) (tempDir timestamp backupPath : string) : list string :=
  ["docker"; "cp";
   Container config ++ ":" ++ tempDir ++ "/" ++ timestamp ++ "/" ++ Database config;
   backupPath ++ "/"].
Definition dockerCleanup (config : DatabaseConfig) (tempDir timestamp : string) : list string :=
  ["docker"; "exec"; Container config;
   "rm"; "-rf"; tempDir ++ "/" ++ timestamp].

(** The same three commands through [kubectl]. *)
Definition kubectlCreate (config : DatabaseConfig) (namespace tempDir timestamp : string) : list string :=
  ["kubectl"; "exec"; "-n"; namespace; Pod config; "--";
   "mongodump"; "--host"; "localhost"; "--db"; Database config;
   "--out"; tempDir ++ "/" ++ timestamp].
Definition kubectlCopy (config : DatabaseConfig) (namespace tempDir timestamp backupPath : string) : list string :=
  ["kubectl"; "cp";
   namespace ++ "/" ++ Pod config ++ ":" ++ tempDir ++ "/" ++ timestamp ++ "/" ++ Database config;
   backupPath ++ "/"].
Definition kubectlCleanup (config : DatabaseConfig) (namespace tempDir timestamp : string) : list string :=
  ["kubectl"; "exec"; "-n"; namespace; Pod config; "--";
   "rm"; "-rf"; tempDir ++ "/" ++ timestamp].

(** The three-phase protocol of the two exec methods: the answers of
    [os.MkdirAll] and of the cleanup command are dropped. *)
Definition createCopyCleanup (create copy cleanup : list string)
           (createFailure copyFailure : string) (backupPath : string)
  : Prog (option error) :=
  created <- call (CmdRun create) ;;
  match created with
  | Some err => Ret (Some (Errorf_w createFailure err))
  | None =>
      call (OsMkdirAll backupPath mode_0755) ;;;
      copied <- call (CmdRun copy) ;;
      match copied with
      | Some err => Ret (Some (Errorf_w copyFailure err))
      | None =>
          call (CmdRun cleanup) ;;;
          Ret None
      end
  end.

(** [BackupMongoDB] *)
Definition BackupMongoDB (config : DatabaseConfig) (method : BackupMethod)
           (backupPath namespace tempDir : string) : Prog (option error) :=
  wd <- call OsGetwd ;;
  let cwd := fst wd in
  if String.eqb method BackupMethodDockerRun then
    call (CmdRun
      ["docker"; "run"; "--rm";
       "-v"; cwd ++ "/backup/mongodb:/backup";
       "mongo:" ++ Version config;
       "mongodump"; "--host"; Host config; "--db"; Database config;
       "--out"; "/backup/" ++ filepath.Base backupPath])
  else if String.eqb method BackupMethodDockerExec then
    let timestamp := filepath.Base backupPath in
    createCopyCleanup
      (dockerCreate config tempDir timestamp)
      (dockerCopy config tempDir timestamp backupPath)
      (dockerCleanup config tempDir timestamp)
      "failed to create backup in container: "
      "failed to copy backup from container: "
      backupPath
  else if String.eqb method BackupMethodKubectlExec then
    let timestamp := filepath.Base backupPath in
    createCopyCleanup
      (kubectlCreate config namespace tempDir timestamp)
      (kubectlCopy config namespace tempDir timestamp backupPath)
      (kubectlCleanup config namespace tempDir timestamp)
      "failed to create backup in pod: "
      "failed to copy backup from pod: "
      backupPath
  else
    Ret (Some (Errorf_s "unknown backup method: " method)).

(** [GetFileSize] *)
Definition GetFileSize (path : string) (isDirectory : bool)
  : Prog (string * option error) :=
  let argv := if isDirectory then ["du"; "-sh"; path] else ["du"; "-h"; path] in
  out <- call (CmdOutput argv) ;;
  match snd out with
  | Some err => Ret ("", Some (Errorf_w "failed to get file size: " err))
  | None =>
      match strings.Fields (fst out) with
      | field0 :: _ => Ret (field0, None)
      | [] => Ret ("unknown", None)
      end
  end.

(** [BackupRepositoryImpl implements domain.BackupRepository]: the method
    table that [NewBackupRepository] hands to the use case. *)
Definition BackupRepositoryImpl (c : Call) : option (Prog (Resp c)) :=
  match c return option (Prog (Resp c)) with
  | RepoBackupPostgres config method backupPath namespace =>
      Some (BackupPostgres config method backupPath namespace)
  | RepoBackupMySQL config method backupPath namespace =>
      Some (BackupMySQL config method backupPath namespace)
  | RepoBackupMariaDB config method backupPath namespace =>
      Some (BackupMariaDB config method backupPath namespace)
  | RepoBackupMongoDB config method backupPath namespace tempDir =>
      Some (BackupMongoDB config method backupPath namespace tempDir)
  | RepoGetFileSize path isDirectory =>
      Some (GetFileSize path isDirectory)
  | _ => None
  end.

End infrastructure.

(* ===================================================================== *)
(** ** The use case ([internal/usecase/backup_usecase.go]) *)

Module usecase.

(** [time.Since(startTime)]: a reading of the monotonic clock, minus the
    reading taken at the start. *)
Definition timeSince (startTime : Z) : Prog time.Duration :=
  now <- call TimeNow ;;
  Ret (time.subMono now startTime).

(** [backupDatabase] *)
Definition backupDatabase (dbConfig : DatabaseConfig) (method : BackupMethod)
           (timestamp namespace tempDir : string) : Prog BackupResult :=
  startTime <- call TimeNow ;;
  let result := mkBackupResult (Type_ dbConfig) (Database dbConfig) false "" "" None 0 in
  call (PrintBackupStart (Type_ dbConfig) dbConfig method) ;;;
  let backupDir := filepath.Join ["backup"; DatabaseType_String (Type_ dbConfig)] in
  mk <- call (OsMkdirAll backupDir infrastructure.mode_0755) ;;
  match mk with
  | Some err =>
      let result := set_Error result (Some (Errorf_w "failed to create backup directory: " err)) in
      d <- timeSince startTime ;;
      Ret (set_Duration result d)
  | None =>
      backup <-
        (if String.eqb (Type_ dbConfig) DatabaseTypePostgres then
           let backupPath := filepath.Join [backupDir; Database dbConfig ++ "_" ++ timestamp ++ ".sql"] in
           err <- call (RepoBackupPostgres dbConfig method backupPath namespace) ;;
           Ret (backupPath, err)
         else if String.eqb (Type_ dbConfig) DatabaseTypeMySQL then
           let backupPath := filepath.Join [backupDir; Database dbConfig ++ "_" ++ timestamp ++ ".sql"] in
           err <- call (RepoBackupMySQL dbConfig method backupPath namespace) ;;
           Ret (backupPath, err)
         else if String.eqb (Type_ dbConfig) DatabaseTypeMariaDB then
           let backupPath := filepath.Join [backupDir; Database dbConfig ++ "_" ++ timestamp ++ ".sql"] in
           err <- call (RepoBackupMariaDB dbConfig method backupPath namespace) ;;
           Ret (backupPath, err)
         else if String.eqb (Type_ dbConfig) DatabaseTypeMongoDB then
           let backupPath := filepath.Join [backupDir; timestamp] in
           err <- call (RepoBackupMongoDB dbConfig method backupPath namespace tempDir) ;;
           Ret (backupPath, err)
         else
           Ret ("", None)) ;;
      let '(backupPath, err) := backup in
      d <- timeSince startTime ;;
      let result := set_Duration result d in
      let result := set_BackupPath result backupPath in
      match err with
      | Some e => Ret (set_Error result (Some e))
      | None =>
          let isDirectory := String.eqb (Type_ dbConfig) DatabaseTypeMongoDB in
          sz <- call (RepoGetFileSize backupPath isDirectory) ;;
          match snd sz with
          | Some e =>
              Ret (set_Error result (Some (Errorf_w "backup created but failed to get size: " e)))
          | None =>
              let result := set_Size result (fst sz) in
              Ret (set_Success result true)
          end
      end
  end.

(** The loop of [executeBackups]: one job after the other, each result
    appended to [results] and printed. *)
Fixpoint backupAll (databases : list DatabaseConfig) (method : BackupMethod)
         (timestamp namespace tempDir : string) (results : list BackupResult)
  : Prog (list BackupResult) :=
  match databases with
  | [] => Ret results
  | dbConfig :: rest =>
      result <- backupDatabase dbConfig method timestamp namespace tempDir ;;
      let results := (results ++ [result])%list in
      call (PrintBackupResult result) ;;;
      backupAll rest method timestamp namespace tempDir results
  end.

(** [executeBackups] *)
Definition executeBackups (config : BackupConfig) : Prog (list BackupResult) :=
  let timestamp := time.Format (Timestamp config) "2006-01-02_15-04-05" in
  backupAll (Databases config) (Method config) timestamp
            (K8sNamespace config) (TempDir config) [].

End usecase.

(* ===================================================================== *)
(** ** Wiring ([cmd/backup/main.go])

    [usecase.NewBackupUsecase(infrastructure.NewBackupRepository(), ...)]:
    every call of the use case to the repository port runs the method of
    [BackupRepositoryImpl]. *)

Fixpoint wire {A : Type} (p : Prog A) : Prog A :=
  match p with
  | Ret a => Ret a
  | Do c k =>
      let k' := fun r => wire (k r) in
      match infrastructure.BackupRepositoryImpl c with
      | Some body => bind body k'
      | None => Do c k'
      end
  end.

(* ===================================================================== *)
(** ** Scripted environments

    An environment given by one answer per kind of call; its clock advances
    by one nanosecond per event.  These are the environments of the worked
    examples. *)

Record Script : Type := mkScript {
  on_mkdir : string -> option error;
  on_getwd : string * option error;
  on_write : string -> option error;
  on_output : list string -> string * option error;
  on_run : list string -> option error;
  on_backup : Call -> option error;
  on_size : string -> bool -> string * option error
}.

Definition scripted (s : Script) : Oracle :=
  fun h c =>
    match c return Resp c with
    | TimeNow => Z.of_nat (List.length h)
    | OsMkdirAll path _ => on_mkdir s path
    | OsGetwd => on_getwd s
    | OsWriteFile name _ _ => on_write s name
    | CmdOutput argv => on_output s argv
    | CmdRun argv => on_run s argv
    | PrintBackupStart _ _ _ => tt
    | PrintBackupResult _ => tt
    | RepoBackupPostgres _ _ _ _ as c' => on_backup s c'
    | RepoBackupMySQL _ _ _ _ as c' => on_backup s c'
    | RepoBackupMariaDB _ _ _ _ as c' => on_backup s c'
    | RepoBackupMongoDB _ _ _ _ _ as c' => on_backup s c'
    | RepoGetFileSize path isDirectory => on_size s path isDirectory
    end.

(** The environment in which everything succeeds: commands print nothing
    but [du], which prints a size, a tab and the path. *)
Definition du_line (path : string) : string :=
  "4.0K" ++ String (ascii_of_nat 9) path ++ String (ascii_of_nat 10) "".

Definition all_good : Script :=
  mkScript (fun _ => None) ("/srv", None) (fun _ => None)
           (fun argv => match argv with
                        | "du" :: _ :: path :: nil => (du_line path, None)
                        | _ => ("-- dump", None)
                        end)
           (fun _ => None) (fun _ => None) (fun path _ => ("4.0K", None)).

Definition exit_status_1 : error := sysError "exit status 1".

Definition mkdir_denied : Script :=
  mkScript (fun _ => Some (sysError "mkdir backup: permission denied"))
           (on_getwd all_good) (on_write all_good) (on_output all_good)
           (on_run all_good) (on_backup all_good) (on_size all_good).

(** [du] exits with status 1 on a path that does not exist; the empty path
    is one. *)
Definition du_fails : Script :=
  mkScript (on_mkdir all_good) (on_getwd all_good) (on_write all_good)
           (fun argv => match argv with
                        | "du" :: _ => ("", Some exit_status_1)
                        | _ => on_output all_good argv
                        end)
           (on_run all_good) (on_backup all_good)
           (fun _ _ => ("", Some (Errorf_w "failed to get file size: " exit_status_1))).

(** The dump command fails inside the target. *)
Definition create_fails : Script :=
  mkScript (on_mkdir all_good) (on_getwd all_good) (on_write all_good)
           (on_output all_good)
           (fun argv => if existsb (String.eqb "mongodump") argv
                        then Some exit_status_1 else None)
           (on_backup all_good) (on_size all_good).

(** The dump succeeds, the copy out of the target fails. *)
Definition copy_fails : Script :=
  mkScript (on_mkdir all_good) (on_getwd all_good) (on_write all_good)
           (on_output all_good)
           (fun argv => if existsb (String.eqb "cp") argv
                        then Some exit_status_1 else None)
           (on_backup all_good) (on_size all_good).

(** Dump and copy succeed, the removal of the remote directory fails. *)
Definition cleanup_fails : Script :=
  mkScript (on_mkdir all_good) (on_getwd all_good) (on_write all_good)
           (on_output all_good)
           (fun argv => if existsb (String.eqb "rm") argv
                        then Some exit_status_1 else None)
           (on_backup all_good) (on_size all_good).

(** The jobs of the worked examples. *)
Definition postgres_job : DatabaseConfig :=
  mkDatabaseConfig DatabaseTypePostgres "postgres" 5432 "postgres" "secret"
                   "production_db" "15" "" "postgres-primary-0".

Definition mongodb_job : DatabaseConfig :=
  mkDatabaseConfig DatabaseTypeMongoDB "mongodb" 27017 "" ""
                   "appdb" "7" "test-mongodb" "mongodb-0".

Definition oracle_job : DatabaseConfig :=
  mkDatabaseConfig "oracle" "oracle" 1521 "system" "secret" "orcl" "19" "" "".


Definition march_9th : time.Time := time.mkTime 2024 3 9 14 5 7.

(* ===================================================================== *)
(** ** Specification vocabulary *)

(** [wp p Q]: whatever the environment answers, the events and the result
    of [p] satisfy [Q]. *)
Fixpoint wp {A : Type} (p : Prog A) (Q : list Event -> A -> Prop) : Prop :=
  match p with
  | Ret a => Q [] a
  | Do c k => forall r : Resp c, wp (k r) (fun tr a => Q (Ev c r :: tr) a)
  end.

(** What identifies a job, and the job a result belongs to. *)
Definition job_key (c : DatabaseConfig) : DatabaseType * string :=
  (Type_ c, Database c).
Definition result_key (r : BackupResult) : DatabaseType * string :=
  (DatabaseType_ r, Database_ r).

Definition is_mkdir (c : Call) : bool :=
  match c with OsMkdirAll _ _ => true | _ => false end.

(** The path argument of a call to one of the backup methods of the
    repository. *)
Definition backup_call_path (c : Call) : option string :=
  match c with
  | RepoBackupPostgres _ _ backupPath _ => Some backupPath
  | RepoBackupMySQL _ _ backupPath _ => Some backupPath
  | RepoBackupMariaDB _ _ backupPath _ => Some backupPath
  | RepoBackupMongoDB _ _ backupPath _ _ => Some backupPath
  | _ => None
  end.

(** The backups that produce one file. *)
Definition produces_file (dt : DatabaseType) : bool :=
  String.eqb dt DatabaseTypePostgres || String.eqb dt DatabaseTypeMySQL
  || String.eqb dt DatabaseTypeMariaDB.

(** A date of the common era with a four-digit year. *)
Definition calendar (t : time.Time) : Prop :=
  0 <= time.Year t <= 9999 /\ 1 <= time.Month t <= 12 /\ 1 <= time.Day t <= 31 /\
  0 <= time.Hour t <= 23 /\ 0 <= time.Minute t <= 59 /\ 0 <= time.Second t <= 59.

Definition is_digit (c : ascii) : bool :=
  (48 <=? nat_of_ascii c)%nat && (nat_of_ascii c <=? 57)%nat.


(** The three commands of the MongoDB protocol for an exec method. *)
Definition createCommand (method : BackupMethod) (config : DatabaseConfig)
           (namespace tempDir backupPath : string) : list string :=
  if String.eqb method BackupMethodDockerExec
  then infrastructure.dockerCreate config tempDir (filepath.Base backupPath)
  else infrastructure.kubectlCreate config namespace tempDir (filepath.Base backupPath).

Definition copyCommand (method : BackupMethod) (config : DatabaseConfig)
           (namespace tempDir backupPath : string) : list string :=
  if String.eqb method BackupMethodDockerExec
  then infrastructure.dockerCopy config tempDir (filepath.Base backupPath) backupPath
  else infrastructure.kubectlCopy config namespace tempDir (filepath.Base backupPath) backupPath.

Definition cleanupCommand (method : BackupMethod) (config : DatabaseConfig)
           (namespace tempDir backupPath : string) : list string :=
  if String.eqb method BackupMethodDockerExec
  then infrastructure.dockerCleanup config tempDir (filepath.Base backupPath)
  else infrastructure.kubectlCleanup config namespace tempDir (filepath.Base backupPath).

(** ASCII white space, and strings made of it. *)
Definition asciiSpace (c : ascii) : bool :=
  let n := nat_of_ascii c in ((9 <=? n) && (n <=? 13) || (n =? 32))%nat.

(** A printable ASCII byte other than the blank. *)
Definition graphic (c : ascii) : bool :=
  let n := nat_of_ascii c in ((33 <=? n) && (n <=? 126))%nat.

Fixpoint all_bytes (f : ascii -> bool) (s : string) : bool :=
  match s with
  | EmptyString => true
  | String c rest => f c && all_bytes f rest
  end.

(** A result records a size when its [Size] field holds one: a
    measurement is never the empty string. *)
Definition size_recorded (r : BackupResult) : Prop := Size r <> "".

(** The destination of a MongoDB backup, as [backupDatabase] computes it. *)
Definition mongoPath (timestamp : string) : string :=
  filepath.Join [filepath.Join ["backup"; DatabaseType_String DatabaseTypeMongoDB]; timestamp].

(** The messages that introduce a failure of the first two phases. *)
Definition createFailure (method : BackupMethod) : string :=
  if String.eqb method BackupMethodDockerExec
  then "failed to create backup in container: "
  else "failed to create backup in pod: ".

Definition copyFailure (method : BackupMethod) : string :=
  if String.eqb method BackupMethodDockerExec
  then "failed to copy backup from container: "
  else "failed to copy backup from pod: ".

(** The fields a scan stands for: the field in progress, when there is
    one, then the others. *)
Definition field_cons (p : string * list string) : list string :=
  if String.eqb (fst p) "" then snd p else fst p :: snd p.

(* ===================================================================== *)
(** ** Vocabulary for the adapter *)

(** The engines whose backup is one dump file, with their methods of the
    adapter. *)
Inductive FileEngine : Type := Postgres | MySQL | MariaDB.

Definition fileBackup (engine : FileEngine)
  : DatabaseConfig -> BackupMethod -> string -> string -> Prog (option error) :=
  match engine with
  | Postgres => infrastructure.BackupPostgres
  | MySQL => infrastructure.BackupMySQL
  | MariaDB => infrastructure.BackupMariaDB
  end.

(** The message that introduces a failure of the dump command. *)
Definition dumpFailure (method : BackupMethod) : string :=
  if String.eqb method BackupMethodDockerRun then "docker run failed: "
  else if String.eqb method BackupMethodDockerExec then "docker exec failed: "
  else "kubectl exec failed: ".

(** The program a method runs its commands with. *)
Definition runtime (method : BackupMethod) : string :=
  if String.eqb method BackupMethodKubectlExec then "kubectl" else "docker".

Definition is_write (c : Call) : bool :=
  match c with OsWriteFile _ _ _ => true | _ => false end.

(** The program of a spawned command: the first word of its [argv]. *)
Definition spawned_program (c : Call) : option string :=
  match c with
  | CmdOutput (prog :: _) => Some prog
  | CmdRun (prog :: _) => Some prog
  | _ => None
  end.

(** Every dump command fails. *)
Definition dump_fails : Script :=
  mkScript (on_mkdir all_good) (on_getwd all_good) (on_write all_good)
           (fun _ => ("", Some exit_status_1))
           (fun _ => Some exit_status_1) (on_backup all_good) (on_size all_good).

(** The disk is full: nothing can be written. *)
Definition disk_full : Script :=
  mkScript (on_mkdir all_good) (on_getwd all_good)
           (fun _ => Some (sysError "write: no space left on device"))
           (on_output all_good) (on_run all_good) (on_backup all_good) (on_size all_good).

(** The command of a MongoDB backup through [docker run]. *)
Definition dockerRunMongo (config : DatabaseConfig) (cwd backupPath : string) : list string :=
  ["docker"; "run"; "--rm";
   "-v"; cwd ++ "/backup/mongodb:/backup";
   "mongo:" ++ Version config;
   "mongodump"; "--host"; Host config; "--db"; Database config;
   "--out"; "/backup/" ++ filepath.Base backupPath].


(* ===================================================================== *)
(** ** Vocabulary for the use case *)

(** Every backup call fails. *)
Definition backups_refused : Script :=
  mkScript (on_mkdir all_good) (on_getwd all_good) (on_write all_good)
           (on_output all_good) (on_run all_good)
           (fun _ => Some (sysError "connection refused"))
           (on_size all_good).

(** The repository cannot measure anything. *)
Definition unmeasurable : Script :=
  mkScript (on_mkdir all_good) (on_getwd all_good) (on_write all_good)
           (on_output all_good) (on_run all_good) (on_backup all_good)
           (fun _ _ => ("", Some (sysError "du: not found"))).

Definition two_jobs : BackupConfig :=
  mkBackupConfig BackupMethodDockerExec march_9th "backup" "/tmp/db-backups" "default"
                 [postgres_job; mongodb_job].

(** The events that follow the last reading of the clock ([acc] holds
    those seen since the latest reading). *)
Fixpoint since_reading (tr acc : list Event) : list Event :=
  match tr with
  | [] => acc
  | ev :: rest =>
      match ev_call ev with
      | TimeNow => since_reading rest []
      | _ => since_reading rest (acc ++ [ev])
      end
  end.

(** The size measurements of a trace. *)
Definition measurements (tr : list Event) : list Event :=
  filter (fun ev => is_size_call (ev_call ev)) tr.

(** What an event contributes to [started] and to [printed]. *)
Definition start_of (ev : Event) : list (DatabaseConfig * BackupMethod) :=
  match ev_call ev with
  | PrintBackupStart _ config method => [(config, method)]
  | _ => []
  end.

Definition print_of (ev : Event) : list BackupResult :=
  match ev_call ev with
  | PrintBackupResult result => [result]
  | _ => []
  end.

(** The jobs a trace starts, and the results it prints, in order. *)
Definition started (tr : list Event) : list (DatabaseConfig * BackupMethod) :=
  flat_map start_of tr.

Definition printed (tr : list Event) : list BackupResult :=
  flat_map print_of tr.

(* ===================================================================== *)
(** ** Vocabulary for the batch *)



(** Every job in its turn, whatever the jobs before it returned: each job
    is run in the history left by the jobs before it and by the printing
    of their results.  [link] is the identity (the use case against its
    ports) or [wire] (the use case with the adapter).  The list holds the
    result and the events of each job. *)
Fixpoint each_job_in_turn (o : Oracle) (link : forall A : Type, Prog A -> Prog A)
         (databases : list DatabaseConfig) (method : BackupMethod)
         (timestamp namespace tempDir : string) (h : list Event)
  : list (BackupResult * list Event) :=
  match databases with
  | [] => []
  | dbConfig :: rest =>
      let job := run o (link _ (usecase.backupDatabase dbConfig method timestamp
                                                        namespace tempDir)) h in
      job :: each_job_in_turn o link rest method timestamp namespace tempDir
                              (h ++ snd job ++ [Ev (PrintBackupResult (fst job)) tt])%list
  end.

(** The events of a batch: those of each job, then the printing of its
    result. *)
Definition batch_trace (jobs : list (BackupResult * list Event)) : list Event :=
  flat_map (fun job => (snd job ++ [Ev (PrintBackupResult (fst job)) tt])%list) jobs.

Definition ports : forall A : Type, Prog A -> Prog A := fun _ p => p.

(** The dump commands of the relational engines fail; everything else
    succeeds. *)
Definition sql_dump_fails : Script :=
  mkScript (on_mkdir all_good) (on_getwd all_good) (on_write all_good)
           (fun argv => match argv with
                        | "du" :: _ => on_output all_good argv
                        | _ => ("", Some exit_status_1)
                        end)
           (on_run all_good) (on_backup all_good) (on_size all_good).

(* ===================================================================== *)
(** * Properties *)

(* ===================================================================== *)
(** ** Running programs *)

Lemma run_bind {A B : Type} (o : Oracle) (p : Prog A) (f : A -> Prog B) :
  forall h,
    run o (bind p f) h =
    let (a, tr1) := run o p h in
    let (b, tr2) := run o (f a) (h ++ tr1) in
    (b, (tr1 ++ tr2)%list).
Proof.
  induction p as [a | c k IH]; intros h; simpl.
  - rewrite app_nil_r. destruct (run o (f a) h); reflexivity.
  - rewrite IH.
    destruct (run o (k (o h c)) (h ++ [Ev c (o h c)])) as [a tr1].
    rewrite <- app_assoc. simpl.
    destruct (run o (f a) (h ++ Ev c (o h c) :: tr1)); reflexivity.
Qed.

Lemma wp_run {A : Type} (p : Prog A) :
  forall (Q : list Event -> A -> Prop), wp p Q ->
  forall o h, Q (snd (run o p h)) (fst (run o p h)).
Proof.
  induction p as [a | c k IH]; intros Q H o h; simpl in *.
  - exact H.
  - specialize (IH (o h c) _ (H (o h c)) o (h ++ [Ev c (o h c)])%list).
    destruct (run o (k (o h c)) (h ++ [Ev c (o h c)])%list) as [a tr]. exact IH.
Qed.

Lemma wp_run_eq {A : Type} (p : Prog A) (Q : list Event -> A -> Prop) :
  wp p Q -> forall o h a tr, run o p h = (a, tr) -> Q tr a.
Proof.
  intros H o h a tr E. pose proof (wp_run p Q H o h) as R.
  rewrite E in R. exact R.
Qed.

Lemma wp_any {A : Type} (p : Prog A) :
  forall (Q : list Event -> A -> Prop), (forall tr a, Q tr a) -> wp p Q.
Proof.
  induction p as [a | c k IH]; intros Q H; simpl; auto.
Qed.

Lemma wp_bind {A B : Type} (p : Prog A) (f : A -> Prog B) :
  forall (Q : list Event -> B -> Prop),
    wp p (fun tr1 a => wp (f a) (fun tr2 b => Q (tr1 ++ tr2)%list b)) ->
    wp (bind p f) Q.
Proof.
  induction p as [a | c k IH]; intros Q H; simpl in *.
  - exact H.
  - intros r. apply IH. apply H.
Qed.

(** *** Wiring *)

Lemma wire_bind {A B : Type} (o : Oracle) (p : Prog A) (f : A -> Prog B) :
  forall h,
    run o (wire (bind p f)) h =
    let (a, tr1) := run o (wire p) h in
    let (b, tr2) := run o (wire (f a)) (h ++ tr1) in
    (b, (tr1 ++ tr2)%list).
Proof.
  induction p as [a | c k IH]; intros h.
  - simpl. rewrite app_nil_r. destruct (run o (wire (f a)) h); reflexivity.
  - simpl. destruct (infrastructure.BackupRepositoryImpl c) as [body|].
    + rewrite !run_bind.
      destruct (run o body h) as [r tr0].
      rewrite IH.
      destruct (run o (wire (k r)) (h ++ tr0)) as [a tr1].
      rewrite <- !app_assoc.
      destruct (run o (wire (f a)) (h ++ tr0 ++ tr1)). now rewrite <- app_assoc.
    + simpl. rewrite IH.
      destruct (run o (wire (k (o h c))) (h ++ [Ev c (o h c)])) as [a tr1].
      rewrite <- app_assoc. simpl.
      destruct (run o (wire (f a)) (h ++ Ev c (o h c) :: tr1)); reflexivity.
Qed.

(** Wiring the adapter in keeps every property of the result that holds
    whatever the repository answers. *)
Lemma wire_result {A : Type} (P : A -> Prop) (p : Prog A) :
  wp p (fun _ a => P a) -> wp (wire p) (fun _ a => P a).
Proof.
  induction p as [a | c k IH]; intros H; simpl in *.
  - exact H.
  - destruct (infrastructure.BackupRepositoryImpl c) as [body|].
    + apply wp_bind. apply wp_any. intros _ r. apply IH, H.
    + simpl. intros r. apply IH, H.
Qed.

Lemma implemented_is_repo_call (c : Call) (body : Prog (Resp c)) :
  infrastructure.BackupRepositoryImpl c = Some body -> is_repo_call c = true.
Proof. destruct c; simpl; intros E; try discriminate E; reflexivity. Qed.

(** A run that never reaches the repository is the same run after
    wiring. *)
Lemma wire_silent {A : Type} (o : Oracle) (p : Prog A) :
  forall h,
    (forall ev, In ev (snd (run o p h)) -> is_repo_call (ev_call ev) = false) ->
    run o (wire p) h = run o p h.
Proof.
  induction p as [a | c k IH]; intros h H; simpl in *.
  - reflexivity.
  - destruct (run o (k (o h c)) (h ++ [Ev c (o h c)])) as [a tr] eqn:E.
    simpl in H.
    destruct (infrastructure.BackupRepositoryImpl c) as [body|] eqn:I.
    + apply implemented_is_repo_call in I.
      pose proof (H (Ev c (o h c)) (or_introl eq_refl)) as N. simpl in N.
      rewrite N in I. discriminate I.
    + simpl. rewrite IH, E; [reflexivity |].
      intros ev Hev. apply H. right. rewrite E in Hev. exact Hev.
Qed.

(* ===================================================================== *)
(** ** The branches of [backupDatabase] *)

Ltac type_switch cfg :=
  destruct (String.eqb (Type_ cfg) DatabaseTypePostgres) eqn:Epg;
  [| destruct (String.eqb (Type_ cfg) DatabaseTypeMySQL) eqn:Emy;
     [| destruct (String.eqb (Type_ cfg) DatabaseTypeMariaDB) eqn:Ema;
        [| destruct (String.eqb (Type_ cfg) DatabaseTypeMongoDB) eqn:Emo]]].

Ltac answers :=
  repeat (cbn [wp bind call usecase.timeSince fst snd Resp];
          match goal with
          | |- forall r : option error, _ => intros [?|]
          | |- forall r : (string * option error)%type, _ => intros [? [?|]]
          | |- forall r : unit, _ => intros []
          | |- forall r : Z, _ => intros ?
          end).

(** Every branch of the job at the level of the ports: the directory
    cannot be created; or, for each type of the switch and for the types it
    does not know, the backup fails, the measurement fails, or both
    succeed. *)
Ltac explore cfg :=
  unfold usecase.backupDatabase;
  answers; [| type_switch cfg; answers].

(** Membership in an explicit trace. *)
Ltac member :=
  repeat match goal with
         | H : In _ (_ :: _) |- _ => destruct H as [H | H]; [subst |]
         | H : In _ [] |- _ => destruct H
         end.

Lemma backupDatabase_key cfg m ts ns tmp :
  wp (usecase.backupDatabase cfg m ts ns tmp) (fun _ r => result_key r = job_key cfg).
Proof. explore cfg; reflexivity. Qed.

Lemma backupDatabase_error_iff cfg m ts ns tmp :
  wp (usecase.backupDatabase cfg m ts ns tmp)
     (fun _ r => Error_ r <> None <-> Success r = false).
Proof. explore cfg; cbn; split; congruence. Qed.

(** C6. The result of a job carries a failure detail exactly when its
    success flag is false, whatever the environment answers. *)
Theorem failure_detail_iff_not_success
        (o : Oracle) (h : list Event) (cfg : DatabaseConfig) (m : BackupMethod)
        (ts ns tmp : string) :
  let wired := fst (run o (wire (usecase.backupDatabase cfg m ts ns tmp)) h) in
  let ports := fst (run o (usecase.backupDatabase cfg m ts ns tmp) h) in
  (Error_ wired <> None <-> Success wired = false) /\
  (Error_ ports <> None <-> Success ports = false).
Proof.
  split.
  - apply (wp_run _ _ (wire_result
                         (fun r => Error_ r <> None <-> Success r = false) _
                         (backupDatabase_error_iff cfg m ts ns tmp))).
  - apply (wp_run _ _ (backupDatabase_error_iff cfg m ts ns tmp)).
Qed.

(* ===================================================================== *)
(** ** Durations *)

Lemma subMono_nonneg (t u : Z) : u <= t -> 0 <= time.subMono t u.
Proof.
  intros H. unfold time.subMono.
  destruct (time.wrap64 (t - u) <? 0) eqn:N; simpl.
  - destruct (t >? u) eqn:G.
    + unfold time.maxDuration. lia.
    + assert (t = u) by lia. subst. replace (u - u) with 0 in N by lia.
      vm_compute in N. discriminate N.
  - destruct ((time.wrap64 (t - u) >? 0) && (t <? u)) eqn:C.
    + apply andb_true_iff in C. lia.
    + lia.
Qed.

(* ===================================================================== *)
(** ** A job against arbitrary repository answers *)

(** C5. Whatever the database type and the method, when the backup call
    and the size measurement of a job both return without error, the
    result has [Success = true], no failure detail, the size the
    measurement returned, and, the clock being monotonic, a duration that
    is not negative. *)
Theorem successful_job_outcome
        (o : Oracle) (h : list Event) (cfg : DatabaseConfig) (m : BackupMethod)
        (ts ns tmp : string) (r : BackupResult) (tr : list Event) :
  run o (usecase.backupDatabase cfg m ts ns tmp) h = (r, tr) ->
  forall evb evs : Event,
    In evb tr -> is_backup_call (ev_call evb) = true -> ev_error evb = None ->
    In evs tr -> is_size_call (ev_call evs) = true -> ev_error evs = None ->
    nondecreasing (clock_readings tr) ->
    Success r = true /\ Error_ r = None /\ Size r = ev_output evs /\ 0 <= Duration_ r.
Proof.
  revert r tr.
  apply (wp_run_eq (usecase.backupDatabase cfg m ts ns tmp)
           (fun tr r =>
              forall evb evs : Event,
                In evb tr -> is_backup_call (ev_call evb) = true -> ev_error evb = None ->
                In evs tr -> is_size_call (ev_call evs) = true -> ev_error evs = None ->
                nondecreasing (clock_readings tr) ->
                Success r = true /\ Error_ r = None /\ Size r = ev_output evs
                /\ 0 <= Duration_ r)).
  explore cfg; intros evb evs Ib Cb Eb Is Cs Es Mono; member;
    simpl in Cb, Eb, Cs, Es; try discriminate.
  all: simpl in Mono; simpl; repeat split; apply subMono_nonneg; lia.
Qed.

(** The postgres job of the examples, everything succeeding. *)
Lemma successful_job_outcome_witness :
  let r := fst (run (scripted all_good)
                    (usecase.backupDatabase postgres_job BackupMethodKubectlExec
                       "2024-03-09_14-05-07" "production" "/tmp/db-backups") []) in
  Success r = true /\ Error_ r = None /\ Size r = "4.0K" /\ 0 <= Duration_ r.
Proof.
  refine (successful_job_outcome (scripted all_good) [] postgres_job
            BackupMethodKubectlExec "2024-03-09_14-05-07" "production" "/tmp/db-backups"
            _ _ eq_refl
            (Ev (RepoBackupPostgres postgres_job BackupMethodKubectlExec
                   "backup/postgres/production_db_2024-03-09_14-05-07.sql" "production") None)
            (Ev (RepoGetFileSize "backup/postgres/production_db_2024-03-09_14-05-07.sql" false)
                ("4.0K", None))
            _ eq_refl eq_refl _ eq_refl eq_refl _).
  - vm_compute. right; right; right; left. reflexivity.
  - vm_compute. do 5 right. left. reflexivity.
  - vm_compute. intuition discriminate.
Defined.

Lemma directory_failure_ports cfg m ts ns tmp :
  wp (usecase.backupDatabase cfg m ts ns tmp)
     (fun tr r =>
        forall (ev : Event) (e : error),
          In ev tr -> is_mkdir (ev_call ev) = true -> ev_error ev = Some e ->
          Error_ r = Some (Errorf_w "failed to create backup directory: " e) /\
          Success r = false /\ Size r = "" /\ BackupPath r = "" /\
          (exists t0 t1, clock_readings tr = [t0; t1] /\ Duration_ r = time.subMono t1 t0) /\
          (forall ev', In ev' tr ->
                       is_repo_call (ev_call ev') = false /\ is_spawn (ev_call ev') = false)).
Proof.
  explore cfg; intros ev' e' I C E; member; simpl in C, E; try discriminate.
  injection E as <-.
  do 4 (split; [reflexivity |]). split; [do 2 eexists; split; reflexivity |].
  intros ev'' I'. simpl in I'.
  repeat (destruct I' as [<- | I']; [split; reflexivity |]). destruct I'.
Qed.

(** C9, as the code has it.  When the directory of the database type
    cannot be created, the job stops there: the result is a failure whose
    detail wraps the error of the directory creation, its duration is the
    time elapsed between the two readings of the clock, its size and its
    backup path are left empty (nothing is measured), and neither the
    repository nor any external command is called; the wired program
    behaves the same. *)
Theorem directory_failure_short_circuits
        (o : Oracle) (h : list Event) (cfg : DatabaseConfig) (m : BackupMethod)
        (ts ns tmp : string) (r : BackupResult) (tr : list Event) :
  run o (usecase.backupDatabase cfg m ts ns tmp) h = (r, tr) ->
  forall (ev : Event) (e : error),
    In ev tr -> is_mkdir (ev_call ev) = true -> ev_error ev = Some e ->
    (Error_ r = Some (Errorf_w "failed to create backup directory: " e) /\
     Success r = false /\ Size r = "" /\ BackupPath r = "" /\
     (exists t0 t1, clock_readings tr = [t0; t1] /\ Duration_ r = time.subMono t1 t0) /\
     (forall ev', In ev' tr ->
                  is_repo_call (ev_call ev') = false /\ is_spawn (ev_call ev') = false)) /\
    run o (wire (usecase.backupDatabase cfg m ts ns tmp)) h = (r, tr).
Proof.
  intros R ev e I C E.
  pose proof (wp_run_eq _ _ (directory_failure_ports cfg m ts ns tmp) o h r tr R ev e I C E) as P.
  split; [exact P |].
  rewrite wire_silent; [exact R |].
  rewrite R. intros ev' I'. apply P, I'.
Qed.

(** The postgres job in a directory that cannot be written. *)
Lemma directory_failure_short_circuits_witness :
  let job := usecase.backupDatabase postgres_job BackupMethodDockerRun
               "2024-03-09_14-05-07" "default" "/tmp/db-backups" in
  let r := fst (run (scripted mkdir_denied) job []) in
  Error_ r = Some (Errorf_w "failed to create backup directory: "
                            (sysError "mkdir backup: permission denied")) /\
  Size r = "" /\
  fst (run (scripted mkdir_denied) (wire job) []) = r.
Proof.
  pose proof (directory_failure_short_circuits (scripted mkdir_denied) []
                postgres_job BackupMethodDockerRun
                "2024-03-09_14-05-07" "default" "/tmp/db-backups" _ _ eq_refl
                (Ev (OsMkdirAll "backup/postgres" infrastructure.mode_0755)
                    (Some (sysError "mkdir backup: permission denied")))
                (sysError "mkdir backup: permission denied")) as W.
  destruct W as [[E [_ [S _]]] Wd].
  - vm_compute. right; right; left. reflexivity.
  - reflexivity.
  - reflexivity.
  - cbv zeta. rewrite Wd. split; [exact E |]. split; [exact S | reflexivity].
Defined.

(** C9, as stated, fails: in a directory that cannot be written the job
    reports the directory-creation failure with an empty size, although
    the repository, had it been asked, would have reported [4.0K]. *)
Lemma directory_failure_records_no_size :
  let r := fst (run (scripted mkdir_denied)
                    (wire (usecase.backupDatabase postgres_job BackupMethodDockerRun
                             "2024-03-09_14-05-07" "default" "/tmp/db-backups")) []) in
  Success r = false /\
  Error_ r = Some (Errorf_w "failed to create backup directory: "
                            (sysError "mkdir backup: permission denied")) /\
  ~ size_recorded r.
Proof.
  vm_compute. repeat split. intros H. apply H. reflexivity.
Qed.

(* ===================================================================== *)
(** ** Timestamps and destination paths *)

Lemma ContainsByte_app (c : ascii) (a b : string) :
  strings.ContainsByte c (a ++ b)
  = strings.ContainsByte c a || strings.ContainsByte c b.
Proof.
  induction a as [| d a IH]; simpl.
  - reflexivity.
  - rewrite IH. apply orb_assoc.
Qed.

Lemma length_app (a b : string) :
  String.length (a ++ b) = (String.length a + String.length b)%nat.
Proof. induction a as [| d a IH]; simpl; [reflexivity | now rewrite IH]. Qed.

Lemma digit_is_digit (d : Z) : 0 <= d <= 9 -> is_digit (time.digit d) = true.
Proof.
  intros H.
  assert (d = 0 \/ d = 1 \/ d = 2 \/ d = 3 \/ d = 4 \/ d = 5 \/ d = 6 \/ d = 7
          \/ d = 8 \/ d = 9) as C by lia.
  repeat (destruct C as [-> | C]; [reflexivity |]). subst. reflexivity.
Qed.

Lemma digit_not_slash (c : ascii) : is_digit c = true -> Ascii.eqb "/" c = false.
Proof.
  intros H. destruct (Ascii.eqb_spec "/"%char c) as [<- | N]; [discriminate H | reflexivity].
Qed.

Lemma digits_no_slash (fuel : nat) :
  forall u acc,
    0 <= u -> strings.ContainsByte "/" acc = false ->
    strings.ContainsByte "/" (time.digits fuel u acc) = false.
Proof.
  induction fuel as [| fuel IH]; intros u acc U A; cbn [time.digits].
  - exact A.
  - assert (strings.ContainsByte "/" (String (time.digit (u mod 10)) acc) = false) as A'.
    { cbn [strings.ContainsByte]. rewrite A, digit_not_slash; [reflexivity |].
      apply digit_is_digit. pose proof (Z.mod_pos_bound u 10). lia. }
    destruct (u / 10 =? 0); [exact A' |].
    apply IH; [apply Z.div_pos; lia | exact A'].
Qed.

Lemma zeros_no_slash (n : nat) : strings.ContainsByte "/" (time.zeros n) = false.
Proof. induction n; simpl; auto. Qed.

Lemma appendInt_no_slash (x width : Z) :
  strings.ContainsByte "/" (time.appendInt x width) = false.
Proof.
  unfold time.appendInt.
  assert (strings.ContainsByte "/" (if x <? 0 then "-" else "") = false) as S
      by (destruct (x <? 0); reflexivity).
  pose proof (Z.abs_nonneg x) as U. set (u := Z.abs x) in *.
  destruct ((width =? 2) && (u <? 100)) eqn:W2;
    [| destruct ((width =? 4) && (u <? 10000)) eqn:W4];
    rewrite ContainsByte_app, S; cbn [strings.ContainsByte orb].
  - apply andb_true_iff in W2 as [_ W2]. apply Z.ltb_lt in W2.
    rewrite !digit_not_slash; [reflexivity | |];
      apply digit_is_digit; Z.div_mod_to_equations; lia.
  - apply andb_true_iff in W4 as [_ W4]. apply Z.ltb_lt in W4.
    rewrite !digit_not_slash; [reflexivity | | | |];
      apply digit_is_digit; Z.div_mod_to_equations; lia.
  - rewrite ContainsByte_app, zeros_no_slash. cbn [orb].
    apply digits_no_slash; [exact U | reflexivity].
Qed.

Lemma appendInt_2 (x : Z) :
  0 <= x <= 99 ->
  time.appendInt x 2 = String (time.digit (x / 10)) (String (time.digit (x mod 10)) "").
Proof.
  intros H. unfold time.appendInt.
  rewrite (Z.abs_eq x) by lia.
  replace (x <? 100) with true by (symmetry; apply Z.ltb_lt; lia).
  replace (x <? 0) with false by (symmetry; apply Z.ltb_ge; lia).
  reflexivity.
Qed.

Lemma appendInt_4 (x : Z) :
  0 <= x <= 9999 ->
  time.appendInt x 4 =
  String (time.digit (x / 100 / 10)) (String (time.digit (x / 100 mod 10))
    (String (time.digit (x mod 100 / 10)) (String (time.digit (x mod 100 mod 10)) ""))).
Proof.
  intros H. unfold time.appendInt.
  rewrite (Z.abs_eq x) by lia.
  replace (x <? 10000) with true by (symmetry; apply Z.ltb_lt; lia).
  replace (x <? 0) with false by (symmetry; apply Z.ltb_ge; lia).
  reflexivity.
Qed.

Lemma append_empty (s : string) : s ++ "" = s.
Proof. induction s as [| c s IH]; cbn [append]; [reflexivity | now rewrite IH]. Qed.

(** The layout of [executeBackups], chunk by chunk. *)
Lemma Format_layout (t : time.Time) :
  time.Format t "2006-01-02_15-04-05" =
  time.appendInt (time.Year t) 4 ++ "-" ++ time.appendInt (time.Month t) 2 ++ "-"
  ++ time.appendInt (time.Day t) 2 ++ "_" ++ time.appendInt (time.Hour t) 2 ++ "-"
  ++ time.appendInt (time.Minute t) 2 ++ "-" ++ time.appendInt (time.Second t) 2.
Proof.
  rewrite <- (append_empty (time.appendInt (time.Second t) 2)) at 1. reflexivity.
Qed.

Lemma Format_no_slash (t : time.Time) :
  strings.ContainsByte "/" (time.Format t "2006-01-02_15-04-05") = false.
Proof.
  rewrite Format_layout.
  rewrite !ContainsByte_app, !appendInt_no_slash. reflexivity.
Qed.



(** *** [filepath.Join] on the paths of the use case *)

Lemma SplitSlash_no_slash (x : string) :
  strings.ContainsByte "/" x = false -> strings.SplitSlash x = [x].
Proof.
  induction x as [| c x IH]; cbn [strings.ContainsByte strings.SplitSlash]; intros H.
  - reflexivity.
  - apply orb_false_iff in H as [C R].
    rewrite Ascii.eqb_sym, C, (IH R). reflexivity.
Qed.

Lemma SplitSlash_app (x y : string) :
  strings.ContainsByte "/" x = false ->
  strings.SplitSlash (x ++ String "/" y) = x :: strings.SplitSlash y.
Proof.
  induction x as [| c x IH]; cbn [strings.ContainsByte]; intros H.
  - reflexivity.
  - apply orb_false_iff in H as [C R].
    cbn [append strings.SplitSlash]. rewrite Ascii.eqb_sym, C.
    cbn [append] in IH. rewrite (IH R). reflexivity.
Qed.

Lemma long_name_is_no_dot (name : string) :
  (3 <= String.length name)%nat ->
  String.eqb name "" = false /\ String.eqb name "." = false
  /\ String.eqb name ".." = false.
Proof.
  intros L. repeat split; apply String.eqb_neq; intros ->; simpl in L; lia.
Qed.

Lemma valid_type_cases (ty : DatabaseType) :
  DatabaseType_IsValid ty = true ->
  ty = DatabaseTypePostgres \/ ty = DatabaseTypeMySQL
  \/ ty = DatabaseTypeMariaDB \/ ty = DatabaseTypeMongoDB.
Proof.
  unfold DatabaseType_IsValid. rewrite !orb_true_iff, !String.eqb_eq. tauto.
Qed.

(** The directory of a known type, and a path in it: [Join] cleans the
    path made of the directory, a slash and the name. *)
Lemma Join_type_dir (ty : DatabaseType) (name : string) :
  DatabaseType_IsValid ty = true ->
  filepath.Join [filepath.Join ["backup"; DatabaseType_String ty]; name]
  = filepath.Clean ("backup/" ++ ty ++ "/" ++ name).
Proof.
  intros V.
  destruct (valid_type_cases ty V) as [-> | [-> | [-> | ->]]]; reflexivity.
Qed.

(** Elements without slash that are neither empty nor dot elements are
    left as they are. *)
Lemma Clean_backup_dir (d name : string) :
  strings.ContainsByte "/" d = false -> (3 <= String.length d)%nat ->
  strings.ContainsByte "/" name = false -> (3 <= String.length name)%nat ->
  filepath.Clean ("backup/" ++ d ++ "/" ++ name) = "backup/" ++ d ++ "/" ++ name.
Proof.
  intros Nd Ld N L.
  destruct (long_name_is_no_dot name L) as (E0 & E1 & E2).
  destruct (long_name_is_no_dot d Ld) as (D0 & D1 & D2).
  unfold filepath.Clean.
  change (String.eqb ("backup/" ++ d ++ "/" ++ name) "") with false.
  change (prefix "/" ("backup/" ++ d ++ "/" ++ name)) with false.
  assert (strings.SplitSlash ("backup/" ++ d ++ "/" ++ name) = ["backup"; d; name]) as Sp.
  { change ("backup/" ++ d ++ "/" ++ name)
      with ("backup" ++ String "/" (d ++ String "/" name)).
    now rewrite (SplitSlash_app "backup" _ eq_refl), (SplitSlash_app d _ Nd),
      (SplitSlash_no_slash name N). }
  rewrite Sp.
  cbn [fold_left]. unfold filepath.cleanStep.
  change (String.eqb "backup" "") with false.
  change (String.eqb "backup" ".") with false.
  change (String.eqb "backup" "..") with false.
  rewrite E0, E1, E2, D0, D1, D2. cbn [orb rev app strings.Join].
  reflexivity.
Qed.

Lemma Clean_type_dir (ty : DatabaseType) (name : string) :
  DatabaseType_IsValid ty = true ->
  strings.ContainsByte "/" name = false ->
  (3 <= String.length name)%nat ->
  filepath.Clean ("backup/" ++ ty ++ "/" ++ name) = "backup/" ++ ty ++ "/" ++ name.
Proof.
  intros V N L.
  destruct (valid_type_cases ty V) as [-> | [-> | [-> | ->]]];
    apply Clean_backup_dir; trivial; simpl; lia.
Qed.

Lemma file_name_length (db ts : string) :
  (3 <= String.length (db ++ "_" ++ ts ++ ".sql"))%nat.
Proof. rewrite !length_app. simpl. lia. Qed.

Lemma file_name_no_slash (db ts : string) :
  strings.ContainsByte "/" db = false -> strings.ContainsByte "/" ts = false ->
  strings.ContainsByte "/" (db ++ "_" ++ ts ++ ".sql") = false.
Proof. intros D T. rewrite !ContainsByte_app, D, T. reflexivity. Qed.

Lemma produces_file_valid (ty : DatabaseType) :
  produces_file ty = true -> DatabaseType_IsValid ty = true.
Proof.
  unfold produces_file, DatabaseType_IsValid. intros ->. reflexivity.
Qed.

Lemma destination_path_ports cfg m ts ns tmp :
  wp (usecase.backupDatabase cfg m ts ns tmp)
     (fun tr r =>
        forall evb : Event,
          In evb tr -> is_backup_call (ev_call evb) = true ->
          backup_call_path (ev_call evb) = Some (BackupPath r) /\
          (produces_file (Type_ cfg) = true ->
           BackupPath r = filepath.Join
                            [filepath.Join ["backup"; DatabaseType_String (Type_ cfg)];
                             Database cfg ++ "_" ++ ts ++ ".sql"]) /\
          (Type_ cfg = DatabaseTypeMongoDB ->
           BackupPath r = filepath.Join
                            [filepath.Join ["backup"; DatabaseType_String (Type_ cfg)]; ts])).
Proof.
  explore cfg; intros evb I C; member; cbn [ev_call is_backup_call] in C;
    try discriminate C;
    repeat match goal with
           | H : String.eqb _ _ = true |- _ => apply String.eqb_eq in H
           end;
    cbn [ev_call backup_call_path BackupPath set_Error set_Duration set_BackupPath
         set_Size set_Success];
    (split; [reflexivity |]); split; intros T;
    try reflexivity;
    try (rewrite T in *; discriminate);
    match goal with
    | H : Type_ cfg = _ |- _ => rewrite H in T; discriminate T
    end.
Qed.

(** The destination path for any timestamp that is one path element. *)
Lemma destination_path_of_timestamp
      (o : Oracle) (h : list Event) (cfg : DatabaseConfig) (m : BackupMethod)
      (ts ns tmp : string) (r : BackupResult) (tr : list Event) :
  strings.ContainsByte "/" ts = false -> (3 <= String.length ts)%nat ->
  run o (usecase.backupDatabase cfg m ts ns tmp) h = (r, tr) ->
  forall evb : Event,
    In evb tr -> is_backup_call (ev_call evb) = true ->
    backup_call_path (ev_call evb) = Some (BackupPath r) /\
    (produces_file (Type_ cfg) = true ->
     BackupPath r
     = filepath.Clean ("backup/" ++ Type_ cfg ++ "/" ++ Database cfg ++ "_" ++ ts ++ ".sql")
     /\ (strings.ContainsByte "/" (Database cfg) = false ->
         BackupPath r = "backup/" ++ Type_ cfg ++ "/" ++ Database cfg ++ "_" ++ ts ++ ".sql")) /\
    (Type_ cfg = DatabaseTypeMongoDB -> BackupPath r = "backup/mongodb/" ++ ts).
Proof.
  intros Ns Ls R evb I C.
  destruct (wp_run_eq _ _ (destination_path_ports cfg m ts ns tmp) o h r tr R evb I C)
    as (P & F & M).
  split; [exact P |]. split.
  - intros T. rewrite (F T), (Join_type_dir _ _ (produces_file_valid _ T)).
    split; [reflexivity |]. intros D.
    apply Clean_type_dir.
    + apply produces_file_valid, T.
    + apply file_name_no_slash; [exact D | exact Ns].
    + apply file_name_length.
  - intros T. rewrite (M T), T.
    change ("backup/mongodb/" ++ ts) with ("backup/" ++ DatabaseTypeMongoDB ++ "/" ++ ts).
    rewrite Join_type_dir by reflexivity.
    apply Clean_type_dir; [reflexivity | exact Ns | exact Ls].
Qed.

(* ===================================================================== *)
(** ** The MongoDB protocol of the exec methods, in a whole job *)

Ltac wired_answers :=
  repeat (cbn [wp bind call wire usecase.timeSince fst snd Resp
               infrastructure.BackupRepositoryImpl infrastructure.BackupMongoDB
               infrastructure.createCopyCleanup infrastructure.GetFileSize
               infrastructure.BackupPostgres infrastructure.BackupMySQL
               infrastructure.BackupMariaDB infrastructure.mysqldump
               infrastructure.dumpToFile
               String.eqb Ascii.eqb Bool.eqb
               DatabaseTypePostgres DatabaseTypeMySQL DatabaseTypeMariaDB
               DatabaseTypeMongoDB BackupMethodDockerRun BackupMethodDockerExec
               BackupMethodKubectlExec];
          match goal with
          | |- forall r : option error, _ => intros [?|]
          | |- forall r : (string * option error)%type, _ => intros [? [?|]]
          | |- forall r : unit, _ => intros []
          | |- forall r : Z, _ => intros ?
          | |- context [strings.Fields ?x] => destruct (strings.Fields x) eqn:?
          end).


Ltac unfold_commands :=
  unfold mongoPath, createCommand, copyCommand, cleanupCommand, createFailure, copyFailure,
    infrastructure.dockerCreate, infrastructure.dockerCopy, infrastructure.dockerCleanup,
    infrastructure.kubectlCreate, infrastructure.kubectlCopy, infrastructure.kubectlCleanup
    in *;
  cbn [String.eqb Ascii.eqb Bool.eqb BackupMethodDockerExec BackupMethodKubectlExec] in *.

(** No call of an explicit trace is the given one. *)
Ltac absent :=
  let N := fresh "N" in
  intros N; cbn [calls map ev_call In] in N;
  repeat (destruct N as [N | N]; [discriminate N |]); exact N.

Ltac present := cbn [In]; repeat first [left; reflexivity | right].

Lemma mongodb_exec_phases_wp (cfg : DatabaseConfig) (m : BackupMethod) (ts ns tmp : string) :
  Type_ cfg = DatabaseTypeMongoDB ->
  m = BackupMethodDockerExec \/ m = BackupMethodKubectlExec ->
  let create := CmdRun (createCommand m cfg ns tmp (mongoPath ts)) in
  let copy := CmdRun (copyCommand m cfg ns tmp (mongoPath ts)) in
  let cleanup := CmdRun (cleanupCommand m cfg ns tmp (mongoPath ts)) in
  wp (wire (usecase.backupDatabase cfg m ts ns tmp))
     (fun tr r =>
        (forall (ev : Event) (e : error),
            In ev tr -> ev_call ev = create -> ev_error ev = Some e ->
            Success r = false /\ Error_ r = Some (Errorf_w (createFailure m) e)
            /\ ~ In copy (calls tr) /\ ~ In cleanup (calls tr)) /\
        (forall (ev : Event) (e : error),
            In ev tr -> ev_call ev = copy -> ev_error ev = Some e ->
            Success r = false /\ Error_ r = Some (Errorf_w (copyFailure m) e)
            /\ ~ In cleanup (calls tr)) /\
        (In cleanup (calls tr) ->
         In (Ev (CmdRun (createCommand m cfg ns tmp (mongoPath ts))) None) tr
         /\ In (Ev (CmdRun (copyCommand m cfg ns tmp (mongoPath ts))) None) tr)).
Proof.
  intros T M create copy cleanup. subst create copy cleanup.
  unfold usecase.backupDatabase. rewrite T.
  destruct M as [-> | ->]; wired_answers; unfold_commands.
  all: split; [| split].
  all: try (intros ev' e' I C E; member; cbn [ev_call ev_error snd] in C, E;
            try discriminate C; try discriminate E;
            injection E as <-;
            repeat split; absent).
  all: try (intros I; cbn [calls map ev_call In] in I;
            repeat (destruct I as [I | I]; [discriminate I |]);
            first [solve [split; present] | destruct I]).
Qed.

(** C3. In a mongodb job under [docker-exec] or [kubectl-exec]: when the
    command that creates the dump inside the target fails, the job fails
    with an error that says so and wraps the cause, and neither the copy
    nor the cleanup command is run; when the copy fails, the job fails
    likewise and the cleanup command is not run; and the cleanup command
    is run only after both the creation and the copy have succeeded. *)
Theorem mongodb_exec_phases
        (o : Oracle) (h : list Event) (cfg : DatabaseConfig) (m : BackupMethod)
        (ts ns tmp : string) (r : BackupResult) (tr : list Event) :
  Type_ cfg = DatabaseTypeMongoDB ->
  m = BackupMethodDockerExec \/ m = BackupMethodKubectlExec ->
  run o (wire (usecase.backupDatabase cfg m ts ns tmp)) h = (r, tr) ->
  let create := CmdRun (createCommand m cfg ns tmp (mongoPath ts)) in
  let copy := CmdRun (copyCommand m cfg ns tmp (mongoPath ts)) in
  let cleanup := CmdRun (cleanupCommand m cfg ns tmp (mongoPath ts)) in
  (forall (ev : Event) (e : error),
      In ev tr -> ev_call ev = create -> ev_error ev = Some e ->
      Success r = false /\ Error_ r = Some (Errorf_w (createFailure m) e)
      /\ ~ In copy (calls tr) /\ ~ In cleanup (calls tr)) /\
  (forall (ev : Event) (e : error),
      In ev tr -> ev_call ev = copy -> ev_error ev = Some e ->
      Success r = false /\ Error_ r = Some (Errorf_w (copyFailure m) e)
      /\ ~ In cleanup (calls tr)) /\
  (In cleanup (calls tr) ->
   In (Ev (CmdRun (createCommand m cfg ns tmp (mongoPath ts))) None) tr
   /\ In (Ev (CmdRun (copyCommand m cfg ns tmp (mongoPath ts))) None) tr).
Proof.
  intros T M R.
  exact (wp_run_eq _ _ (mongodb_exec_phases_wp cfg m ts ns tmp T M) o h r tr R).
Qed.

(** The mongodb job of the examples through [docker exec], the dump
    command failing: the job fails and nothing is copied or removed. *)
Lemma mongodb_exec_phases_witness :
  let job := wire (usecase.backupDatabase mongodb_job BackupMethodDockerExec
                     "2024-03-09_14-05-07" "default" "/tmp/db-backups") in
  let r := fst (run (scripted create_fails) job []) in
  let tr := snd (run (scripted create_fails) job []) in
  Success r = false /\
  Error_ r = Some (Errorf_w "failed to create backup in container: " exit_status_1) /\
  BackupPath r = "backup/mongodb/2024-03-09_14-05-07" /\
  filter is_spawn (calls tr)
  = [CmdRun ["docker"; "exec"; "test-mongodb"; "mongodump"; "--host"; "localhost";
             "--db"; "appdb"; "--out"; "/tmp/db-backups/2024-03-09_14-05-07"]].
Proof.
  pose proof (mongodb_exec_phases (scripted create_fails) [] mongodb_job
                BackupMethodDockerExec "2024-03-09_14-05-07" "default" "/tmp/db-backups"
                _ _ eq_refl (or_introl eq_refl) eq_refl) as W.
  destruct W as [W _].
  destruct (W (Ev (CmdRun ["docker"; "exec"; "test-mongodb"; "mongodump"; "--host";
                           "localhost"; "--db"; "appdb"; "--out";
                           "/tmp/db-backups/2024-03-09_14-05-07"])
                  (Some exit_status_1)) exit_status_1) as (S & E & _).
  - vm_compute. do 4 right. left. reflexivity.
  - reflexivity.
  - reflexivity.
  - cbv zeta. split; [exact S |]. split; [exact E |]. split; reflexivity.
Defined.

(* ===================================================================== *)
(** ** Best-effort cleanup *)

Ltac adapter_answers :=
  repeat (cbn [wp bind call fst snd Resp
               infrastructure.BackupMongoDB infrastructure.createCopyCleanup
               String.eqb Ascii.eqb Bool.eqb
               BackupMethodDockerRun BackupMethodDockerExec BackupMethodKubectlExec];
          match goal with
          | |- forall r : option error, _ => intros [?|]
          | |- forall r : (string * option error)%type, _ => intros [? [?|]]
          | |- forall r : unit, _ => intros []
          | |- forall r : Z, _ => intros ?
          end).

Lemma BackupMongoDB_cleanup_wp (cfg : DatabaseConfig) (m : BackupMethod)
      (path ns tmp : string) :
  m = BackupMethodDockerExec \/ m = BackupMethodKubectlExec ->
  wp (infrastructure.BackupMongoDB cfg m path ns tmp)
     (fun tr res =>
        forall eva evb : Event,
          In eva tr -> ev_call eva = CmdRun (createCommand m cfg ns tmp path) ->
          ev_error eva = None ->
          In evb tr -> ev_call evb = CmdRun (copyCommand m cfg ns tmp path) ->
          ev_error evb = None ->
          res = None /\ In (CmdRun (cleanupCommand m cfg ns tmp path)) (calls tr)).
Proof.
  intros M. unfold infrastructure.BackupMongoDB.
  destruct M as [-> | ->]; adapter_answers; unfold_commands.
  all: intros eva evb Ia Ca Ea; member; cbn [ev_call ev_error snd] in Ca, Ea;
    try discriminate Ca; try discriminate Ea.
  all: intros Ib Cb Eb; member; cbn [ev_call ev_error snd] in Cb, Eb;
    try discriminate Cb; try discriminate Eb.
  all: split; [reflexivity | cbn [calls map ev_call]; present].
Qed.

Lemma job_cleanup_wp (cfg : DatabaseConfig) (m : BackupMethod) (ts ns tmp : string) :
  Type_ cfg = DatabaseTypeMongoDB ->
  m = BackupMethodDockerExec \/ m = BackupMethodKubectlExec ->
  wp (wire (usecase.backupDatabase cfg m ts ns tmp))
     (fun tr r =>
        forall eva evb : Event,
          In eva tr -> ev_call eva = CmdRun (createCommand m cfg ns tmp (mongoPath ts)) ->
          ev_error eva = None ->
          In evb tr -> ev_call evb = CmdRun (copyCommand m cfg ns tmp (mongoPath ts)) ->
          ev_error evb = None ->
          In (CmdRun (cleanupCommand m cfg ns tmp (mongoPath ts))) (calls tr) /\
          BackupPath r = mongoPath ts /\
          forall evs : Event,
            In evs tr -> ev_call evs = CmdOutput ["du"; "-sh"; mongoPath ts] ->
            (ev_error evs = None -> Success r = true /\ Error_ r = None) /\
            (forall e : error,
                ev_error evs = Some e ->
                Success r = false /\
                Error_ r = Some (Errorf_w "backup created but failed to get size: "
                                          (Errorf_w "failed to get file size: " e)))).
Proof.
  intros T M. unfold usecase.backupDatabase. rewrite T.
  destruct M as [-> | ->]; wired_answers; unfold_commands.
  all: intros eva evb Ia Ca Ea; member; cbn [ev_call ev_error snd] in Ca, Ea;
    try discriminate Ca; try discriminate Ea.
  all: intros Ib Cb Eb; member; cbn [ev_call ev_error snd] in Cb, Eb;
    try discriminate Cb; try discriminate Eb.
  all: split; [cbn [calls map ev_call]; present |]; split; [reflexivity |].
  all: intros evs Is Cs; member; cbn [ev_call ev_error snd] in Cs; try discriminate Cs.
  all: cbn [ev_error snd]; split; [intros Es | intros e' Es];
    try discriminate Es; try (injection Es as <-); split; reflexivity.
Qed.

(** C4. In a mongodb job under an exec method whose dump and copy have
    succeeded, the cleanup command is run and its answer is dropped:
    [BackupMongoDB] returns no error whatever the cleanup returns, and the
    result of the job depends on the size measurement alone, being a
    success when [du] succeeds and the size failure when it fails. *)
Theorem cleanup_is_best_effort
        (o : Oracle) (cfg : DatabaseConfig) (m : BackupMethod) (ns tmp : string) :
  m = BackupMethodDockerExec \/ m = BackupMethodKubectlExec ->
  (forall (h : list Event) (path : string) (res : option error) (tr : list Event),
      run o (infrastructure.BackupMongoDB cfg m path ns tmp) h = (res, tr) ->
      forall eva evb : Event,
        In eva tr -> ev_call eva = CmdRun (createCommand m cfg ns tmp path) ->
        ev_error eva = None ->
        In evb tr -> ev_call evb = CmdRun (copyCommand m cfg ns tmp path) ->
        ev_error evb = None ->
        res = None /\ In (CmdRun (cleanupCommand m cfg ns tmp path)) (calls tr)) /\
  (forall (h : list Event) (ts : string) (r : BackupResult) (tr : list Event),
      Type_ cfg = DatabaseTypeMongoDB ->
      run o (wire (usecase.backupDatabase cfg m ts ns tmp)) h = (r, tr) ->
      forall eva evb : Event,
        In eva tr -> ev_call eva = CmdRun (createCommand m cfg ns tmp (mongoPath ts)) ->
        ev_error eva = None ->
        In evb tr -> ev_call evb = CmdRun (copyCommand m cfg ns tmp (mongoPath ts)) ->
        ev_error evb = None ->
        In (CmdRun (cleanupCommand m cfg ns tmp (mongoPath ts))) (calls tr) /\
        BackupPath r = mongoPath ts /\
        forall evs : Event,
          In evs tr -> ev_call evs = CmdOutput ["du"; "-sh"; mongoPath ts] ->
          (ev_error evs = None -> Success r = true /\ Error_ r = None) /\
          (forall e : error,
              ev_error evs = Some e ->
              Success r = false /\
              Error_ r = Some (Errorf_w "backup created but failed to get size: "
                                        (Errorf_w "failed to get file size: " e)))).
Proof.
  intros M. split.
  - intros h path res tr R.
    exact (wp_run_eq _ _ (BackupMongoDB_cleanup_wp cfg m path ns tmp M) o h res tr R).
  - intros h ts r tr T R.
    exact (wp_run_eq _ _ (job_cleanup_wp cfg m ts ns tmp T M) o h r tr R).
Qed.

(** The mongodb job of the examples in a pod where the dump cannot be
    removed: [BackupMongoDB] returns no error and the job succeeds. *)
Lemma cleanup_is_best_effort_witness :
  let path := "backup/mongodb/2024-03-09_14-05-07" in
  let run_adapter := run (scripted cleanup_fails)
                         (infrastructure.BackupMongoDB mongodb_job BackupMethodKubectlExec
                            path "production" "/tmp/db-backups") [] in
  fst run_adapter = None /\
  In (Ev (CmdRun ["kubectl"; "exec"; "-n"; "production"; "mongodb-0"; "--";
                  "rm"; "-rf"; "/tmp/db-backups/2024-03-09_14-05-07"])
         (Some exit_status_1))
     (snd run_adapter).
Proof.
  pose proof (cleanup_is_best_effort (scripted cleanup_fails) mongodb_job
                BackupMethodKubectlExec "production" "/tmp/db-backups"
                (or_intror eq_refl)) as [W _].
  specialize (W [] "backup/mongodb/2024-03-09_14-05-07" _ _ eq_refl
                (Ev (CmdRun ["kubectl"; "exec"; "-n"; "production"; "mongodb-0"; "--";
                             "mongodump"; "--host"; "localhost"; "--db"; "appdb";
                             "--out"; "/tmp/db-backups/2024-03-09_14-05-07"]) None)
                (Ev (CmdRun ["kubectl"; "cp";
                             "production/mongodb-0:/tmp/db-backups/2024-03-09_14-05-07/appdb";
                             "backup/mongodb/2024-03-09_14-05-07/"]) None)).
  destruct W as [N _].
  - vm_compute. right; left. reflexivity.
  - reflexivity.
  - reflexivity.
  - vm_compute. do 3 right. left. reflexivity.
  - reflexivity.
  - reflexivity.
  - cbv zeta. split; [exact N |]. vm_compute. do 4 right. left. reflexivity.
Defined.

(* ===================================================================== *)
(** ** Types and methods outside the enumerations *)

Lemma invalid_type_cases (ty : DatabaseType) :
  DatabaseType_IsValid ty = false ->
  String.eqb ty DatabaseTypePostgres = false /\ String.eqb ty DatabaseTypeMySQL = false
  /\ String.eqb ty DatabaseTypeMariaDB = false /\ String.eqb ty DatabaseTypeMongoDB = false.
Proof.
  unfold DatabaseType_IsValid. rewrite !orb_false_iff. tauto.
Qed.

Lemma invalid_method_cases (m : BackupMethod) :
  BackupMethod_IsValid m = false ->
  String.eqb m BackupMethodDockerRun = false /\ String.eqb m BackupMethodDockerExec = false
  /\ String.eqb m BackupMethodKubectlExec = false.
Proof.
  unfold BackupMethod_IsValid. rewrite !orb_false_iff. tauto.
Qed.

(** Exploration of the wired job when the comparisons of the type and of
    the method are known as equations. *)
Ltac wired_cbn :=
  cbn [wp bind call wire usecase.timeSince fst snd Resp
       infrastructure.BackupRepositoryImpl infrastructure.BackupMongoDB
       infrastructure.createCopyCleanup infrastructure.GetFileSize
       infrastructure.BackupPostgres infrastructure.BackupMySQL
       infrastructure.BackupMariaDB infrastructure.mysqldump
       infrastructure.dumpToFile].

Ltac known_comparisons :=
  repeat match goal with
         | H : String.eqb _ _ = _ |- _ => rewrite H
         end.

Ltac wired_symbolic :=
  repeat (wired_cbn; known_comparisons;
          match goal with
          | |- forall r : option error, _ => intros [?|]
          | |- forall r : (string * option error)%type, _ => intros [? [?|]]
          | |- forall r : unit, _ => intros []
          | |- forall r : Z, _ => intros ?
          | |- context [strings.Fields ?x] => destruct (strings.Fields x) eqn:?
          end);
  wired_cbn.

Lemma unknown_type_ports (cfg : DatabaseConfig) (m : BackupMethod) (ts ns tmp : string) :
  DatabaseType_IsValid (Type_ cfg) = false ->
  wp (usecase.backupDatabase cfg m ts ns tmp)
     (fun tr r =>
        BackupPath r = "" /\
        (forall ev : Event, In ev tr -> is_backup_call (ev_call ev) = false) /\
        (forall (ev : Event) (e : error),
            In ev tr -> is_mkdir (ev_call ev) = true -> ev_error ev = Some e ->
            calls tr = [TimeNow; PrintBackupStart (Type_ cfg) cfg m;
                        OsMkdirAll (filepath.Join ["backup"; DatabaseType_String (Type_ cfg)])
                                   infrastructure.mode_0755;
                        TimeNow] /\
            Success r = false /\
            Error_ r = Some (Errorf_w "failed to create backup directory: " e)) /\
        ((forall ev : Event, In ev tr -> is_mkdir (ev_call ev) = true -> ev_error ev = None) ->
         calls tr = [TimeNow; PrintBackupStart (Type_ cfg) cfg m;
                     OsMkdirAll (filepath.Join ["backup"; DatabaseType_String (Type_ cfg)])
                                infrastructure.mode_0755;
                     TimeNow; RepoGetFileSize "" false] /\
         (forall (ev : Event) (e : error),
             In ev tr -> is_size_call (ev_call ev) = true -> ev_error ev = Some e ->
             Success r = false /\
             Error_ r = Some (Errorf_w "backup created but failed to get size: " e)) /\
         (forall ev : Event,
             In ev tr -> is_size_call (ev_call ev) = true -> ev_error ev = None ->
             Success r = true /\ Error_ r = None /\ Size r = ev_output ev))).
Proof.
  intros V. destruct (invalid_type_cases _ V) as (Epg & Emy & Ema & Emo).
  unfold usecase.backupDatabase. answers; [| rewrite Epg, Emy, Ema, Emo; answers].
  - (* the directory cannot be created *)
    split; [reflexivity |]. split; [intros ev' I; member; reflexivity |]. split.
    + intros ev' e' I C E. member; cbn [ev_call is_mkdir ev_error] in C, E;
        try discriminate C. injection E as <-. repeat split.
    + intros D. discriminate (D _ (or_intror (or_intror (or_introl eq_refl))) eq_refl).
  - (* the measurement fails *)
    split; [reflexivity |]. split; [intros ev' I; member; reflexivity |]. split.
    + intros ev' e' I C E. member; cbn [ev_call is_mkdir ev_error] in C, E; discriminate.
    + intros _. split; [reflexivity |]. split.
      * intros ev' e' I C E. member; cbn [ev_call is_size_call ev_error snd] in C, E;
          try discriminate C. injection E as <-. split; reflexivity.
      * intros ev' I C E. member; cbn [ev_call is_size_call ev_error snd] in C, E;
          discriminate.
  - (* the measurement succeeds *)
    split; [reflexivity |]. split; [intros ev' I; member; reflexivity |]. split.
    + intros ev' e' I C E. member; cbn [ev_call is_mkdir ev_error] in C, E; discriminate.
    + intros _. split; [reflexivity |]. split.
      * intros ev' e' I C E. member; cbn [ev_call is_size_call ev_error snd] in C, E;
          discriminate.
      * intros ev' I C E. member; cbn [ev_call is_size_call ev_error snd] in C, E;
          try discriminate C. repeat split.
Qed.

Lemma unknown_type_wired (cfg : DatabaseConfig) (m : BackupMethod) (ts ns tmp : string) :
  DatabaseType_IsValid (Type_ cfg) = false ->
  wp (wire (usecase.backupDatabase cfg m ts ns tmp))
     (fun tr r =>
        BackupPath r = "" /\
        (forall (ev : Event) (e : error),
            In ev tr -> is_mkdir (ev_call ev) = true -> ev_error ev = Some e ->
            calls tr = [TimeNow; PrintBackupStart (Type_ cfg) cfg m;
                        OsMkdirAll (filepath.Join ["backup"; DatabaseType_String (Type_ cfg)])
                                   infrastructure.mode_0755;
                        TimeNow] /\
            Success r = false /\
            Error_ r = Some (Errorf_w "failed to create backup directory: " e)) /\
        ((forall ev : Event, In ev tr -> is_mkdir (ev_call ev) = true -> ev_error ev = None) ->
         calls tr = [TimeNow; PrintBackupStart (Type_ cfg) cfg m;
                     OsMkdirAll (filepath.Join ["backup"; DatabaseType_String (Type_ cfg)])
                                infrastructure.mode_0755;
                     TimeNow; CmdOutput ["du"; "-h"; ""]] /\
         (forall (ev : Event) (e : error),
             In ev tr -> ev_call ev = CmdOutput ["du"; "-h"; ""] -> ev_error ev = Some e ->
             Success r = false /\
             Error_ r = Some (Errorf_w "backup created but failed to get size: "
                                       (Errorf_w "failed to get file size: " e))) /\
         (forall ev : Event,
             In ev tr -> ev_call ev = CmdOutput ["du"; "-h"; ""] -> ev_error ev = None ->
             Success r = true /\ Error_ r = None /\
             Size r = hd "unknown" (strings.Fields (ev_output ev))))).
Proof.
  intros V. destruct (invalid_type_cases _ V) as (Epg & Emy & Ema & Emo).
  unfold usecase.backupDatabase. wired_symbolic.
  - (* the directory cannot be created *)
    split; [reflexivity |]. split.
    + intros ev' e' I C E. member; cbn [ev_call is_mkdir ev_error] in C, E;
        try discriminate C. injection E as <-. repeat split.
    + intros D. discriminate (D _ (or_intror (or_intror (or_introl eq_refl))) eq_refl).
  - (* [du] fails *)
    split; [reflexivity |]. split.
    + intros ev' e' I C E. member; cbn [ev_call is_mkdir ev_error] in C, E; discriminate.
    + intros _. split; [reflexivity |]. split.
      * intros ev' e' I C E. member; cbn [ev_call ev_error snd] in C, E;
          try discriminate C. injection E as <-. split; reflexivity.
      * intros ev' I C E. member; cbn [ev_call ev_error snd] in C, E; discriminate.
  - (* [du] prints no field *)
    split; [reflexivity |]. split.
    + intros ev' e' I C E. member; cbn [ev_call is_mkdir ev_error] in C, E; discriminate.
    + intros _. split; [reflexivity |]. split.
      * intros ev' e' I C E. member; cbn [ev_call ev_error snd] in C, E; discriminate.
      * intros ev' I C E. member; cbn [ev_call ev_error snd] in C, E;
          try discriminate C. cbn [ev_output fst].
        match goal with H : strings.Fields _ = _ |- _ => rewrite H end. repeat split.
  - (* [du] prints a size *)
    split; [reflexivity |]. split.
    + intros ev' e' I C E. member; cbn [ev_call is_mkdir ev_error] in C, E; discriminate.
    + intros _. split; [reflexivity |]. split.
      * intros ev' e' I C E. member; cbn [ev_call ev_error snd] in C, E; discriminate.
      * intros ev' I C E. member; cbn [ev_call ev_error snd] in C, E;
          try discriminate C. cbn [ev_output fst].
        match goal with H : strings.Fields _ = _ |- _ => rewrite H end. repeat split.
Qed.

(** C10, as the code has it.  For a job whose database type is none of
    the four of the switch, no backup method is ever called and the backup
    path of the result is empty.  When the directory cannot be created the
    job stops there, with the directory-creation failure and without any
    measurement.  When the directory has been created the use case goes
    straight to [GetFileSize] on the empty path, which the adapter turns
    into [du -h] on the empty path: when that measurement fails the result
    is a failure whose detail wraps the error of the measurement, and when
    it succeeds the result is a success that carries the measured size. *)
Theorem unknown_type_falls_through
        (o : Oracle) (cfg : DatabaseConfig) (m : BackupMethod) (ts ns tmp : string) :
  DatabaseType_IsValid (Type_ cfg) = false ->
  (forall (h : list Event) (r : BackupResult) (tr : list Event),
      run o (usecase.backupDatabase cfg m ts ns tmp) h = (r, tr) ->
      BackupPath r = "" /\
      (forall ev : Event, In ev tr -> is_backup_call (ev_call ev) = false) /\
      (forall (ev : Event) (e : error),
          In ev tr -> is_mkdir (ev_call ev) = true -> ev_error ev = Some e ->
          calls tr = [TimeNow; PrintBackupStart (Type_ cfg) cfg m;
                      OsMkdirAll (filepath.Join ["backup"; DatabaseType_String (Type_ cfg)])
                                 infrastructure.mode_0755;
                      TimeNow] /\
          Success r = false /\
          Error_ r = Some (Errorf_w "failed to create backup directory: " e)) /\
      ((forall ev : Event, In ev tr -> is_mkdir (ev_call ev) = true -> ev_error ev = None) ->
       calls tr = [TimeNow; PrintBackupStart (Type_ cfg) cfg m;
                   OsMkdirAll (filepath.Join ["backup"; DatabaseType_String (Type_ cfg)])
                              infrastructure.mode_0755;
                   TimeNow; RepoGetFileSize "" false] /\
       (forall (ev : Event) (e : error),
           In ev tr -> is_size_call (ev_call ev) = true -> ev_error ev = Some e ->
           Success r = false /\
           Error_ r = Some (Errorf_w "backup created but failed to get size: " e)) /\
       (forall ev : Event,
           In ev tr -> is_size_call (ev_call ev) = true -> ev_error ev = None ->
           Success r = true /\ Error_ r = None /\ Size r = ev_output ev))) /\
  (forall (h : list Event) (r : BackupResult) (tr : list Event),
      run o (wire (usecase.backupDatabase cfg m ts ns tmp)) h = (r, tr) ->
      BackupPath r = "" /\
      (forall (ev : Event) (e : error),
          In ev tr -> is_mkdir (ev_call ev) = true -> ev_error ev = Some e ->
          calls tr = [TimeNow; PrintBackupStart (Type_ cfg) cfg m;
                      OsMkdirAll (filepath.Join ["backup"; DatabaseType_String (Type_ cfg)])
                                 infrastructure.mode_0755;
                      TimeNow] /\
          Success r = false /\
          Error_ r = Some (Errorf_w "failed to create backup directory: " e)) /\
      ((forall ev : Event, In ev tr -> is_mkdir (ev_call ev) = true -> ev_error ev = None) ->
       calls tr = [TimeNow; PrintBackupStart (Type_ cfg) cfg m;
                   OsMkdirAll (filepath.Join ["backup"; DatabaseType_String (Type_ cfg)])
                              infrastructure.mode_0755;
                   TimeNow; CmdOutput ["du"; "-h"; ""]] /\
       (forall (ev : Event) (e : error),
           In ev tr -> ev_call ev = CmdOutput ["du"; "-h"; ""] -> ev_error ev = Some e ->
           Success r = false /\
           Error_ r = Some (Errorf_w "backup created but failed to get size: "
                                     (Errorf_w "failed to get file size: " e))) /\
       (forall ev : Event,
           In ev tr -> ev_call ev = CmdOutput ["du"; "-h"; ""] -> ev_error ev = None ->
           Success r = true /\ Error_ r = None /\
           Size r = hd "unknown" (strings.Fields (ev_output ev))))).
Proof.
  intros V. split; intros h r tr R.
  - exact (wp_run_eq _ _ (unknown_type_ports cfg m ts ns tmp V) o h r tr R).
  - exact (wp_run_eq _ _ (unknown_type_wired cfg m ts ns tmp V) o h r tr R).
Qed.

(** A job of type [oracle], [du] failing on the empty path. *)
Lemma unknown_type_falls_through_witness :
  let job := wire (usecase.backupDatabase oracle_job BackupMethodDockerRun
                     "2024-03-09_14-05-07" "default" "/tmp/db-backups") in
  let r := fst (run (scripted du_fails) job []) in
  Success r = false /\
  BackupPath r = "" /\
  Error_ r = Some (Errorf_w "backup created but failed to get size: "
                            (Errorf_w "failed to get file size: " exit_status_1)).
Proof.
  pose proof (unknown_type_falls_through (scripted du_fails) oracle_job
                BackupMethodDockerRun "2024-03-09_14-05-07" "default" "/tmp/db-backups"
                eq_refl) as [_ W].
  specialize (W [] _ _ eq_refl).
  destruct W as (P & _ & W).
  destruct W as (_ & F & _).
  - intros ev I C. vm_compute in I.
    repeat (destruct I as [<- | I]; [first [reflexivity | discriminate C] |]).
    destruct I.
  - destruct (F (Ev (CmdOutput ["du"; "-h"; ""]) ("", Some exit_status_1)) exit_status_1)
      as [S E].
    + vm_compute. do 4 right. left. reflexivity.
    + reflexivity.
    + reflexivity.
    + cbv zeta. split; [exact S |]. split; [exact P | exact E].
Defined.

(** C10, as stated, fails: the job of type [oracle] in a directory that
    cannot be written never reaches [GetFileSize].  No measurement is
    asked of the repository, [du] is not spawned, and the failure the job
    reports is that of the directory creation, not of a size measurement. *)
Lemma unknown_type_in_unwritable_directory :
  let job := usecase.backupDatabase oracle_job BackupMethodDockerRun
               "2024-03-09_14-05-07" "default" "/tmp/db-backups" in
  let against_ports := run (scripted mkdir_denied) job [] in
  let wired := run (scripted mkdir_denied) (wire job) [] in
  DatabaseType_IsValid (Type_ oracle_job) = false /\
  filter is_size_call (calls (snd against_ports)) = [] /\
  filter is_spawn (calls (snd wired)) = [] /\
  Success (fst wired) = false /\
  fst against_ports = fst wired /\
  option_map Error (Error_ (fst wired))
  = Some "failed to create backup directory: mkdir backup: permission denied".
Proof. vm_compute. repeat split. Qed.

(** Nor is the failure of the measurement a matter of the use case: a
    repository that answers a size for the empty path makes the job of
    type [oracle] a success. *)
Example unknown_type_measured :
  let r := fst (run (scripted all_good)
                    (usecase.backupDatabase oracle_job BackupMethodDockerRun
                       "2024-03-09_14-05-07" "default" "/tmp/db-backups") []) in
  Success r = true /\ Error_ r = None /\ BackupPath r = "" /\ Size r = "4.0K".
Proof. vm_compute. repeat split. Qed.

(** C2 on the code: a job of type [oracle] is not refused before any
    external call.  The type switch has no default case, so the job goes
    on to measure the empty path: [du] is spawned, and the failure the job
    reports is the failure of that measurement. *)
Theorem unknown_type_spawns_du :
  let job := wire (usecase.backupDatabase oracle_job BackupMethodDockerRun
                     "2024-03-09_14-05-07" "default" "/tmp/db-backups") in
  let r := fst (run (scripted du_fails) job []) in
  let tr := snd (run (scripted du_fails) job []) in
  filter is_spawn (calls tr) = [CmdOutput ["du"; "-h"; ""]] /\
  Success r = false /\
  option_map Error (Error_ r)
  = Some "backup created but failed to get size: failed to get file size: exit status 1".
Proof. vm_compute. repeat split. Qed.

(** The other half of C2 holds: a method outside the enumeration is
    refused by each backup method of the adapter before any process is
    spawned and before anything is written. *)
Lemma unknown_method_is_refused
      (o : Oracle) (h : list Event) (cfg : DatabaseConfig) (m : BackupMethod)
      (ts ns tmp : string) (r : BackupResult) (tr : list Event) :
  DatabaseType_IsValid (Type_ cfg) = true ->
  BackupMethod_IsValid m = false ->
  run o (wire (usecase.backupDatabase cfg m ts ns tmp)) h = (r, tr) ->
  Success r = false /\
  filter is_spawn (calls tr) = [] /\
  ((forall ev : Event, In ev tr -> is_mkdir (ev_call ev) = true -> ev_error ev = None) ->
   Error_ r = Some (Errorf_s "unknown backup method: " m)).
Proof.
  intros V M.
  destruct (invalid_method_cases _ M) as (Mr & Me & Mk).
  revert r tr.
  apply (wp_run_eq (wire (usecase.backupDatabase cfg m ts ns tmp))
           (fun tr r =>
              Success r = false /\ filter is_spawn (calls tr) = [] /\
              ((forall ev : Event,
                   In ev tr -> is_mkdir (ev_call ev) = true -> ev_error ev = None) ->
               Error_ r = Some (Errorf_s "unknown backup method: " m)))).
  unfold usecase.backupDatabase.
  type_switch cfg;
    [ | | | | unfold DatabaseType_IsValid in V; rewrite Epg, Emy, Ema, Emo in V;
            discriminate V ];
    wired_symbolic.
  all: repeat split.
  all: try (intros D;
            discriminate (D _ (or_intror (or_intror (or_introl eq_refl))) eq_refl)).
Qed.

(* ===================================================================== *)
(** ** The size inspector *)

Lemma scan_start (sp sp' : bool) (s : string) :
  strings.scan 0 sp s = strings.scan 0 sp' s.
Proof. destruct s; reflexivity. Qed.

Lemma decode_ascii (c : ascii) (rest : string) :
  (nat_of_ascii c < 128)%nat ->
  utf8.DecodeRuneInString (String c rest) = (utf8.byte c, 1%nat).
Proof.
  intros H. unfold utf8.DecodeRuneInString, utf8.byte.
  replace (Z.of_nat (nat_of_ascii c) <? 128) with true; [reflexivity |].
  symmetry. apply Z.ltb_lt. lia.
Qed.

Ltac bool_cases :=
  repeat match goal with
         | |- context [Z.leb ?a ?b] => destruct (Z.leb_spec a b)
         | |- context [Z.eqb ?a ?b] => destruct (Z.eqb_spec a b)
         end.

Lemma asciiSpace_bounds (c : ascii) :
  asciiSpace c = true ->
  (9 <= nat_of_ascii c <= 13 \/ nat_of_ascii c = 32)%nat.
Proof.
  unfold asciiSpace. rewrite orb_true_iff, andb_true_iff, !Nat.leb_le, Nat.eqb_eq. tauto.
Qed.

Lemma graphic_bounds (c : ascii) :
  graphic c = true -> (33 <= nat_of_ascii c <= 126)%nat.
Proof. unfold graphic. rewrite andb_true_iff, !Nat.leb_le. tauto. Qed.

Lemma IsSpace_asciiSpace (c : ascii) :
  asciiSpace c = true -> unicode.IsSpace (utf8.byte c) = true.
Proof.
  intros H. apply asciiSpace_bounds in H.
  unfold unicode.IsSpace, utf8.between, utf8.byte.
  bool_cases; cbn [andb orb]; try reflexivity; lia.
Qed.

Lemma IsSpace_graphic (c : ascii) :
  graphic c = true -> unicode.IsSpace (utf8.byte c) = false.
Proof.
  intros H. apply graphic_bounds in H.
  unfold unicode.IsSpace, utf8.between, utf8.byte.
  bool_cases; cbn [andb orb]; try reflexivity; lia.
Qed.

Lemma Fields_scan (s : string) : strings.Fields s = field_cons (strings.scan 0 false s).
Proof. unfold strings.Fields, field_cons. destruct (strings.scan 0 false s); reflexivity. Qed.

Lemma scan_space (c : ascii) (rest : string) (sp : bool) :
  asciiSpace c = true ->
  strings.scan 0 sp (String c rest) = ("", field_cons (strings.scan 0 false rest)).
Proof.
  intros H. cbn [strings.scan].
  rewrite decode_ascii by (apply asciiSpace_bounds in H; lia).
  rewrite (IsSpace_asciiSpace _ H). cbn [Nat.pred].
  rewrite (scan_start true false).
  unfold field_cons. destruct (strings.scan 0 false rest); reflexivity.
Qed.

Lemma scan_graphic (c : ascii) (rest : string) (sp : bool) :
  graphic c = true ->
  strings.scan 0 sp (String c rest)
  = (String c (fst (strings.scan 0 false rest)), snd (strings.scan 0 false rest)).
Proof.
  intros H. cbn [strings.scan].
  rewrite decode_ascii by (apply graphic_bounds in H; lia).
  rewrite (IsSpace_graphic _ H). cbn [Nat.pred].
  destruct (strings.scan 0 false rest); reflexivity.
Qed.

(** White space before the first field is skipped. *)
Lemma Fields_leading_space (ws s : string) :
  all_bytes asciiSpace ws = true -> strings.Fields (ws ++ s) = strings.Fields s.
Proof.
  induction ws as [| c ws IH]; cbn [all_bytes append]; intros H.
  - reflexivity.
  - apply andb_true_iff in H as [C W].
    rewrite Fields_scan, (scan_space _ _ _ C). unfold field_cons at 1. cbn [fst snd String.eqb].
    rewrite <- Fields_scan. apply IH, W.
Qed.

(** A run of graphic bytes that ends at white space is one field. *)
Lemma scan_token (tok : string) (sep : ascii) (rest : string) :
  all_bytes graphic tok = true -> asciiSpace sep = true ->
  strings.scan 0 false (tok ++ String sep rest) = (tok, strings.Fields rest).
Proof.
  intros G S. induction tok as [| c tok IH]; cbn [all_bytes append] in *.
  - rewrite (scan_space _ _ _ S), <- Fields_scan. reflexivity.
  - apply andb_true_iff in G as [C G].
    rewrite (scan_graphic _ _ _ C), (IH G). reflexivity.
Qed.

(** A run of graphic bytes that ends the string is one field. *)
Lemma scan_last_token (tok : string) :
  all_bytes graphic tok = true -> strings.scan 0 false tok = (tok, []).
Proof.
  intros G. induction tok as [| c tok IH]; cbn [all_bytes] in *.
  - reflexivity.
  - apply andb_true_iff in G as [C G].
    rewrite (scan_graphic _ _ _ C), (IH G). reflexivity.
Qed.

Lemma nonempty_eqb (s : string) : s <> "" -> String.eqb s "" = false.
Proof. intros H. now apply String.eqb_neq. Qed.

Lemma Fields_first_token (ws tok : string) (sep : ascii) (rest : string) :
  all_bytes asciiSpace ws = true -> all_bytes graphic tok = true -> tok <> "" ->
  asciiSpace sep = true ->
  strings.Fields (ws ++ tok ++ String sep rest) = tok :: strings.Fields rest.
Proof.
  intros W G N S.
  rewrite (Fields_leading_space _ _ W), Fields_scan, (scan_token _ _ _ G S).
  unfold field_cons. cbn [fst snd]. now rewrite (nonempty_eqb _ N).
Qed.

Lemma Fields_only_token (ws tok : string) :
  all_bytes asciiSpace ws = true -> all_bytes graphic tok = true -> tok <> "" ->
  strings.Fields (ws ++ tok) = [tok].
Proof.
  intros W G N.
  rewrite (Fields_leading_space _ _ W), Fields_scan, (scan_last_token _ G).
  unfold field_cons. cbn [fst snd]. now rewrite (nonempty_eqb _ N).
Qed.

Lemma Fields_blank (ws : string) :
  all_bytes asciiSpace ws = true -> strings.Fields ws = [].
Proof.
  intros W. rewrite <- (append_empty ws), (Fields_leading_space _ _ W). reflexivity.
Qed.

(** C8. [GetFileSize] makes one query, [du -sh path] for a directory and
    [du -h path] for a file.  When the query fails the error is wrapped;
    when it succeeds the result is the first field of the output (for an
    output that starts, after optional white space, with a run of
    printable characters, that run), and ["unknown"], without error, when
    the output holds no field, as an empty or blank output does. *)
Theorem GetFileSize_measures
        (o : Oracle) (h : list Event) (path : string) (isDirectory : bool) :
  let query := CmdOutput ["du"; if isDirectory then "-sh" else "-h"; path] in
  let out := fst (o h query) in
  let res := fst (run o (infrastructure.GetFileSize path isDirectory) h) in
  snd (run o (infrastructure.GetFileSize path isDirectory) h) = [Ev query (o h query)] /\
  (forall e : error,
      snd (o h query) = Some e ->
      res = ("", Some (Errorf_w "failed to get file size: " e))) /\
  (snd (o h query) = None ->
   res = (hd "unknown" (strings.Fields out), None) /\
   (forall (ws tok : string) (sep : ascii) (rest : string),
       all_bytes asciiSpace ws = true -> all_bytes graphic tok = true -> tok <> "" ->
       asciiSpace sep = true ->
       out = ws ++ tok ++ String sep rest -> res = (tok, None)) /\
   (forall ws tok : string,
       all_bytes asciiSpace ws = true -> all_bytes graphic tok = true -> tok <> "" ->
       out = ws ++ tok -> res = (tok, None)) /\
   (all_bytes asciiSpace out = true -> res = ("unknown", None))).
Proof.
  intros query out res.
  assert (run o (infrastructure.GetFileSize path isDirectory) h
          = (match snd (o h query) with
             | Some e => ("", Some (Errorf_w "failed to get file size: " e))
             | None => (hd "unknown" (strings.Fields out), None)
             end, [Ev query (o h query)])) as R.
  { unfold infrastructure.GetFileSize, out, query.
    destruct isDirectory; cbn [run bind call];
      match goal with |- context [o h ?q] => destruct (o h q) as [s [e |]] end;
      cbn [fst snd run]; try reflexivity;
      destruct (strings.Fields s); reflexivity. }
  unfold res. rewrite R. cbn [fst snd].
  split; [reflexivity |]. split.
  - intros e E. now rewrite E.
  - intros E. rewrite E. split; [reflexivity |]. split; [| split].
    + intros ws tok sep rest W G N S O.
      now rewrite O, (Fields_first_token _ _ _ _ W G N S).
    + intros ws tok W G N O. now rewrite O, (Fields_only_token _ _ W G N).
    + intros W. now rewrite (Fields_blank _ W).
Qed.

(** A file of which [du -h] prints the size, a tab, the path and a
    newline. *)
Lemma GetFileSize_measures_witness :
  fst (run (scripted all_good)
           (infrastructure.GetFileSize "backup/postgres/production_db.sql" false) [])
  = ("4.0K", None).
Proof.
  pose proof (GetFileSize_measures (scripted all_good) []
                "backup/postgres/production_db.sql" false) as W.
  cbv zeta in W. destruct W as (_ & _ & W).
  destruct (W eq_refl) as (_ & T & _).
  apply (T "" "4.0K" (ascii_of_nat 9)
           ("backup/postgres/production_db.sql" ++ String (ascii_of_nat 10) ""));
    try reflexivity.
  discriminate.
Defined.

(* ===================================================================== *)
(** * Further properties of the adapter *)

Ltac method_switch m :=
  destruct (String.eqb m BackupMethodDockerRun) eqn:Mrun;
  [| destruct (String.eqb m BackupMethodDockerExec) eqn:Mexec;
     [| destruct (String.eqb m BackupMethodKubectlExec) eqn:Mkube]].

Ltac adapter_cbn :=
  cbn [wp bind call fst snd Resp fileBackup
       infrastructure.BackupMongoDB infrastructure.createCopyCleanup
       infrastructure.GetFileSize infrastructure.BackupPostgres
       infrastructure.BackupMySQL infrastructure.BackupMariaDB
       infrastructure.mysqldump infrastructure.dumpToFile].

Ltac adapter_symbolic :=
  repeat (adapter_cbn; known_comparisons;
          match goal with
          | |- forall r : option error, _ => intros [?|]
          | |- forall r : (string * option error)%type, _ => intros [? [?|]]
          | |- forall r : unit, _ => intros []
          | |- forall r : Z, _ => intros ?
          end);
  adapter_cbn.

(** A method that is not [docker-run] but is valid... every valid method
    is one of the three. *)
Lemma method_cases_valid (m : BackupMethod) :
  String.eqb m BackupMethodDockerRun = false ->
  String.eqb m BackupMethodDockerExec = false ->
  String.eqb m BackupMethodKubectlExec = false ->
  BackupMethod_IsValid m = false.
Proof. intros A B C. unfold BackupMethod_IsValid. now rewrite A, B, C. Qed.

Lemma fileBackup_wp (engine : FileEngine) (cfg : DatabaseConfig) (m : BackupMethod)
      (path ns : string) :
  wp (fileBackup engine cfg m path ns)
     (fun tr res =>
        if BackupMethod_IsValid m then
          exists (wd : string * option error) (argv : list string) (out : string)
                 (err : option error) (rest : list Event),
            tr = Ev OsGetwd wd :: Ev (CmdOutput argv) (out, err) :: rest /\
            hd_error argv = Some (runtime m) /\
            match err with
            | Some e => rest = [] /\ res = Some (Errorf_w (dumpFailure m) e)
            | None => rest = [Ev (OsWriteFile path out infrastructure.mode_0644) res]
            end
        else
          calls tr = [OsGetwd] /\ res = Some (Errorf_s "unknown backup method: " m)).
Proof.
  unfold BackupMethod_IsValid, dumpFailure, runtime.
  destruct engine; method_switch m; adapter_symbolic;
    try (split; reflexivity);
    try (assert (String.eqb m BackupMethodKubectlExec = false) as ->
            by (apply String.eqb_neq; intros ->;
                first [discriminate Mrun | discriminate Mexec]));
    cbn [orb];
    do 5 eexists; (split; [reflexivity |]); (split; [reflexivity |]);
    first [reflexivity | split; reflexivity].
Qed.

(** X1. When the dump command of a postgres, mysql or mariadb backup
    fails, the adapter returns that error under the message of the
    method, and writes no file. *)
Theorem failed_dump_writes_nothing
        (o : Oracle) (h : list Event) (engine : FileEngine) (cfg : DatabaseConfig)
        (m : BackupMethod) (path ns : string) (res : option error) (tr : list Event) :
  BackupMethod_IsValid m = true ->
  run o (fileBackup engine cfg m path ns) h = (res, tr) ->
  forall (ev : Event) (e : error),
    In ev tr -> is_spawn (ev_call ev) = true -> ev_error ev = Some e ->
    res = Some (Errorf_w (dumpFailure m) e) /\ filter is_write (calls tr) = [].
Proof.
  intros V R ev e I S E.
  pose proof (wp_run_eq _ _ (fileBackup_wp engine cfg m path ns) o h res tr R) as W.
  cbv beta in W. rewrite V in W.
  destruct W as (wd & argv & out & err & rest & -> & _ & W).
  destruct err as [e0 |].
  - destruct W as [-> ->]. member; cbn [ev_call is_spawn ev_error snd] in S, E;
      try discriminate S. injection E as <-. split; reflexivity.
  - subst rest. member; cbn [ev_call is_spawn ev_error snd] in S, E; discriminate.
Qed.

Lemma failed_dump_writes_nothing_witness :
  let r := run (scripted dump_fails)
               (fileBackup MySQL postgres_job BackupMethodDockerRun
                           "backup/mysql/production_db.sql" "default") [] in
  fst r = Some (Errorf_w "docker run failed: " exit_status_1)
  /\ filter is_write (calls (snd r)) = [].
Proof.
  refine (failed_dump_writes_nothing (scripted dump_fails) [] MySQL postgres_job
            BackupMethodDockerRun "backup/mysql/production_db.sql" "default"
            _ _ eq_refl eq_refl
            (Ev (CmdOutput ["docker"; "run"; "--rm"; "-v"; "/srv/backup/mysql:/backup";
                            "mysql:15"; "sh"; "-c";
                            "mysqldump -hpostgres -upostgres -psecret production_db"])
                ("", Some exit_status_1))
            exit_status_1 _ eq_refl eq_refl).
  vm_compute. right; left. reflexivity.
Defined.

(** X2. When the dump command succeeds, the adapter writes the captured
    standard output, as it is, to the destination path with mode 0644, and
    returns what that write returns: nil, or the error of the write
    without any wrapping. *)
Theorem successful_dump_is_written
        (o : Oracle) (h : list Event) (engine : FileEngine) (cfg : DatabaseConfig)
        (m : BackupMethod) (path ns : string) (res : option error) (tr : list Event) :
  BackupMethod_IsValid m = true ->
  run o (fileBackup engine cfg m path ns) h = (res, tr) ->
  forall ev : Event,
    In ev tr -> is_spawn (ev_call ev) = true -> ev_error ev = None ->
    last tr ev = Ev (OsWriteFile path (ev_output ev) infrastructure.mode_0644) res
    /\ filter is_write (calls tr)
       = [OsWriteFile path (ev_output ev) infrastructure.mode_0644].
Proof.
  intros V R ev I S E.
  pose proof (wp_run_eq _ _ (fileBackup_wp engine cfg m path ns) o h res tr R) as W.
  cbv beta in W. rewrite V in W.
  destruct W as (wd & argv & out & err & rest & -> & _ & W).
  destruct err as [e0 |].
  - destruct W as [-> ->]. member; cbn [ev_call is_spawn ev_error snd] in S, E; discriminate.
  - subst rest. member; cbn [ev_call is_spawn ev_error snd] in S, E;
      try discriminate S. split; reflexivity.
Qed.

Lemma successful_dump_is_written_witness :
  let r := run (scripted disk_full)
               (fileBackup Postgres postgres_job BackupMethodKubectlExec
                           "backup/postgres/production_db.sql" "production") [] in
  fst r = Some (sysError "write: no space left on device")
  /\ filter is_write (calls (snd r))
     = [OsWriteFile "backup/postgres/production_db.sql" "-- dump" infrastructure.mode_0644].
Proof.
  pose proof (successful_dump_is_written (scripted disk_full) [] Postgres postgres_job
                BackupMethodKubectlExec "backup/postgres/production_db.sql" "production"
                _ _ eq_refl eq_refl
                (Ev (CmdOutput ["kubectl"; "exec"; "-n"; "production"; "postgres-primary-0";
                                "--"; "sh"; "-c";
                                "PGPASSWORD='secret' pg_dump -h localhost -U postgres production_db"])
                    ("-- dump", None))) as W.
  destruct W as [L F].
  - vm_compute. right; left. reflexivity.
  - reflexivity.
  - reflexivity.
  - cbv zeta. split; [reflexivity | exact F].
Defined.

(** X3. [BackupMethod.IsValid] and the method switches of the adapter
    agree: a file-producing backup spawns exactly one process, run by
    [kubectl] for [kubectl-exec] and by [docker] otherwise, when the method
    is valid, and for any other method it spawns nothing, writes nothing
    and returns [unknown backup method: <method>]. *)
Theorem method_validity_decides_dispatch
        (o : Oracle) (h : list Event) (engine : FileEngine) (cfg : DatabaseConfig)
        (m : BackupMethod) (path ns : string) (res : option error) (tr : list Event) :
  run o (fileBackup engine cfg m path ns) h = (res, tr) ->
  if BackupMethod_IsValid m then
    exists c : Call,
      filter is_spawn (calls tr) = [c] /\ spawned_program c = Some (runtime m)
  else
    filter is_spawn (calls tr) = [] /\ filter is_write (calls tr) = [] /\
    res = Some (Errorf_s "unknown backup method: " m).
Proof.
  intros R.
  pose proof (wp_run_eq _ _ (fileBackup_wp engine cfg m path ns) o h res tr R) as W.
  cbv beta in W. destruct (BackupMethod_IsValid m).
  - destruct W as (wd & argv & out & err & rest & -> & P & W).
    exists (CmdOutput argv). split.
    + destruct err as [e |]; [destruct W as [-> _] | subst rest]; reflexivity.
    + destruct argv as [| p argv]; [discriminate P | exact P].
  - destruct W as [C ->]. unfold calls in *. rewrite C. repeat split.
Qed.

Lemma method_validity_decides_dispatch_witness :
  let r := run (scripted all_good)
               (fileBackup MariaDB postgres_job "ssh"
                           "backup/mariadb/production_db.sql" "default") [] in
  filter is_spawn (calls (snd r)) = [] /\ filter is_write (calls (snd r)) = [] /\
  fst r = Some (errorString "unknown backup method: ssh").
Proof.
  exact (method_validity_decides_dispatch (scripted all_good) [] MariaDB postgres_job
           "ssh" "backup/mariadb/production_db.sql" "default" _ _ eq_refl).
Defined.

Lemma BackupMongoDB_wp (cfg : DatabaseConfig) (m : BackupMethod) (path ns tmp : string) :
  wp (infrastructure.BackupMongoDB cfg m path ns tmp)
     (fun tr res =>
          if String.eqb m BackupMethodDockerRun then
            exists (cwd : string) (wderr : option error),
              tr = [Ev OsGetwd (cwd, wderr); Ev (CmdRun (dockerRunMongo cfg cwd path)) res]
          else if BackupMethod_IsValid m then
            let create := CmdRun (createCommand m cfg ns tmp path) in
            let copy := CmdRun (copyCommand m cfg ns tmp path) in
            let cleanup := CmdRun (cleanupCommand m cfg ns tmp path) in
            let mkdir := OsMkdirAll path infrastructure.mode_0755 in
            (exists e, calls tr = [OsGetwd; create]
                       /\ res = Some (Errorf_w (createFailure m) e)
                       /\ In (Ev (CmdRun (createCommand m cfg ns tmp path)) (Some e)) tr)
            \/ (exists e, calls tr = [OsGetwd; create; mkdir; copy]
                          /\ res = Some (Errorf_w (copyFailure m) e)
                          /\ In (Ev (CmdRun (copyCommand m cfg ns tmp path)) (Some e)) tr)
            \/ (calls tr = [OsGetwd; create; mkdir; copy; cleanup] /\ res = None)
          else
            calls tr = [OsGetwd] /\ res = Some (Errorf_s "unknown backup method: " m)).
Proof.
  unfold BackupMethod_IsValid, infrastructure.BackupMongoDB.
  method_switch m.
  - adapter_symbolic; do 2 eexists; reflexivity.
  - assert (m = BackupMethodDockerExec) as -> by now apply String.eqb_eq.
    adapter_symbolic; cbn [orb];
      unfold createCommand, copyCommand, cleanupCommand, createFailure, copyFailure;
      cbn [String.eqb Ascii.eqb Bool.eqb BackupMethodDockerExec];
      first [ solve [left; eexists; split; [reflexivity | split; [reflexivity | present]]]
            | solve [right; left; eexists; split; [reflexivity | split; [reflexivity | present]]]
            | solve [right; right; split; reflexivity] ].
  - assert (m = BackupMethodKubectlExec) as -> by now apply String.eqb_eq.
    adapter_symbolic; cbn [orb];
      unfold createCommand, copyCommand, cleanupCommand, createFailure, copyFailure;
      cbn [String.eqb Ascii.eqb Bool.eqb BackupMethodDockerExec BackupMethodKubectlExec];
      first [ solve [left; eexists; split; [reflexivity | split; [reflexivity | present]]]
            | solve [right; left; eexists; split; [reflexivity | split; [reflexivity | present]]]
            | solve [right; right; split; reflexivity] ].
  - adapter_symbolic; cbn [orb]; split; reflexivity.
Qed.

(** X4. A MongoDB backup through [docker run] is one command, which dumps
    into the mounted directory under the last element of the destination
    path; what the command returns is returned as it is, without the
    message that the other branches add, and nothing else is called: no
    local directory is created and nothing is cleaned up. *)
Theorem mongodb_docker_run_is_one_command
        (o : Oracle) (h : list Event) (cfg : DatabaseConfig)
        (path ns tmp : string) (res : option error) (tr : list Event) :
  run o (infrastructure.BackupMongoDB cfg BackupMethodDockerRun path ns tmp) h = (res, tr) ->
  exists (cwd : string) (wderr : option error),
    tr = [Ev OsGetwd (cwd, wderr); Ev (CmdRun (dockerRunMongo cfg cwd path)) res] /\
    last (dockerRunMongo cfg cwd path) "" = "/backup/" ++ filepath.Base path.
Proof.
  intros R.
  pose proof (wp_run_eq _ _ (BackupMongoDB_wp cfg BackupMethodDockerRun path ns tmp)
                o h res tr R) as W.
  cbv beta in W. change (String.eqb BackupMethodDockerRun BackupMethodDockerRun) with true in W.
  destruct W as (cwd & wderr & ->). exists cwd, wderr. split; reflexivity.
Qed.

Lemma mongodb_docker_run_is_one_command_witness :
  let r := run (scripted dump_fails)
               (infrastructure.BackupMongoDB mongodb_job BackupMethodDockerRun
                  "backup/mongodb/2024-03-09_14-05-07" "default" "/tmp/db-backups") [] in
  fst r = Some exit_status_1 /\
  map spawned_program (filter is_spawn (calls (snd r))) = [Some "docker"].
Proof.
  destruct (mongodb_docker_run_is_one_command (scripted dump_fails) [] mongodb_job
              "backup/mongodb/2024-03-09_14-05-07" "default" "/tmp/db-backups" _ _ eq_refl)
    as (cwd & wderr & E & _).
  cbv zeta. split; reflexivity.
Defined.



(* ===================================================================== *)
(** * Further properties of the use case *)

Lemma job_timing_wp (cfg : DatabaseConfig) (m : BackupMethod) (ts ns tmp : string) :
  wp (usecase.backupDatabase cfg m ts ns tmp)
     (fun tr r =>
        exists t0 t1 : Z,
          clock_readings tr = [t0; t1] /\
          Duration_ r = time.subMono t1 t0 /\
          since_reading tr [] = measurements tr).
Proof.
  explore cfg; do 2 eexists; repeat split.
Qed.

(** X6. Every job reads the clock exactly twice and records the
    difference of the two readings as its duration, whatever its outcome;
    a monotonic clock makes it non-negative.  The events after the second
    reading are exactly the size measurements: the duration covers the
    directory creation and the backup call, and never the measurement. *)
Theorem duration_is_always_recorded
        (o : Oracle) (h : list Event) (cfg : DatabaseConfig) (m : BackupMethod)
        (ts ns tmp : string) :
  let r := fst (run o (usecase.backupDatabase cfg m ts ns tmp) h) in
  let tr := snd (run o (usecase.backupDatabase cfg m ts ns tmp) h) in
  exists t0 t1 : Z,
    clock_readings tr = [t0; t1] /\
    Duration_ r = time.subMono t1 t0 /\
    (t0 <= t1 -> 0 <= Duration_ r) /\
    since_reading tr [] = measurements tr.
Proof.
  intros r tr.
  destruct (wp_run _ _ (job_timing_wp cfg m ts ns tmp) o h) as (t0 & t1 & C & D & S).
  exists t0, t1. fold r tr in C, D, S. repeat split; trivial.
  intros L. rewrite D. now apply subMono_nonneg.
Qed.

Lemma failed_backup_wp (cfg : DatabaseConfig) (m : BackupMethod) (ts ns tmp : string) :
  wp (usecase.backupDatabase cfg m ts ns tmp)
     (fun tr r =>
        forall (evb : Event) (e : error),
          In evb tr -> is_backup_call (ev_call evb) = true -> ev_error evb = Some e ->
          Success r = false /\ Error_ r = Some e /\ Size r = "" /\
          backup_call_path (ev_call evb) = Some (BackupPath r) /\
          measurements tr = []).
Proof.
  explore cfg; intros evb e' I C E; member; cbn [ev_call is_backup_call ev_error] in C, E;
    try discriminate C; try discriminate E;
    injection E as <-; repeat split.
Qed.

(** X7. When the backup call of a job returns an error, the result of the
    job is a failure that carries this very error, not wrapped, and the
    path the backup was to be written to; no size is recorded and the
    measurement is not attempted. *)
Theorem failed_backup_is_reported_as_is
        (o : Oracle) (h : list Event) (cfg : DatabaseConfig) (m : BackupMethod)
        (ts ns tmp : string) (r : BackupResult) (tr : list Event) :
  run o (usecase.backupDatabase cfg m ts ns tmp) h = (r, tr) ->
  forall (evb : Event) (e : error),
    In evb tr -> is_backup_call (ev_call evb) = true -> ev_error evb = Some e ->
    Success r = false /\ Error_ r = Some e /\ Size r = "" /\
    backup_call_path (ev_call evb) = Some (BackupPath r) /\
    measurements tr = [].
Proof.
  intros R. exact (wp_run_eq _ _ (failed_backup_wp cfg m ts ns tmp) o h r tr R).
Qed.

Lemma failed_backup_is_reported_as_is_witness :
  let r := fst (run (scripted backups_refused)
                    (usecase.backupDatabase mongodb_job BackupMethodDockerExec
                       "2024-03-09_14-05-07" "default" "/tmp/db-backups") []) in
  Success r = false /\ Error_ r = Some (sysError "connection refused") /\ Size r = "" /\
  BackupPath r = "backup/mongodb/2024-03-09_14-05-07".
Proof.
  destruct (failed_backup_is_reported_as_is (scripted backups_refused) [] mongodb_job
              BackupMethodDockerExec "2024-03-09_14-05-07" "default" "/tmp/db-backups"
              _ _ eq_refl
              (Ev (RepoBackupMongoDB mongodb_job BackupMethodDockerExec
                     "backup/mongodb/2024-03-09_14-05-07" "default" "/tmp/db-backups")
                  (Some (sysError "connection refused")))
              (sysError "connection refused")) as (S & E & Z & P & _).
  - vm_compute. do 3 right. left. reflexivity.
  - reflexivity.
  - reflexivity.
  - cbv zeta. repeat split; trivial.
Defined.

Lemma measurement_wp (cfg : DatabaseConfig) (m : BackupMethod) (ts ns tmp : string) :
  wp (usecase.backupDatabase cfg m ts ns tmp)
     (fun tr r =>
        forall evs : Event,
          In evs tr -> is_size_call (ev_call evs) = true ->
          ev_call evs = RepoGetFileSize (BackupPath r)
                                        (String.eqb (Type_ cfg) DatabaseTypeMongoDB) /\
          (forall evb, In evb tr -> is_backup_call (ev_call evb) = true ->
                       ev_error evb = None) /\
          (forall e : error,
              ev_error evs = Some e ->
              Success r = false /\ Size r = "" /\
              Error_ r = Some (Errorf_w "backup created but failed to get size: " e)) /\
          (ev_error evs = None -> Success r = true /\ Size r = ev_output evs)).
Proof.
  explore cfg; intros evs I C; member; cbn [ev_call is_size_call] in C;
    try discriminate C;
    cbn [ev_call ev_error ev_output fst snd BackupPath set_Error set_Duration
         set_BackupPath set_Size set_Success];
    rewrite ?Epg, ?Emy, ?Ema, ?Emo;
    repeat match goal with
           | H : String.eqb _ _ = true |- _ => apply String.eqb_eq in H; rewrite H
           end;
    (split; [reflexivity |]); (split; [| split]);
    try (intros evb Ib Cb; member; cbn [ev_call is_backup_call] in Cb;
         first [discriminate Cb | reflexivity]);
    try (intros e' E; first [discriminate E | injection E as <-; repeat split]);
    try (intros E; first [discriminate E | split; reflexivity]).
Qed.

(** X8. The size of a backup is measured on the backup path of the
    result, recursively exactly when the type is mongodb, and only when no
    backup call has failed.  A failed measurement turns the job into a
    failure that wraps the error of the measurement and records no size; a
    successful one makes the job a success with the measured size. *)
Theorem measurement_decides_the_outcome
        (o : Oracle) (h : list Event) (cfg : DatabaseConfig) (m : BackupMethod)
        (ts ns tmp : string) (r : BackupResult) (tr : list Event) :
  run o (usecase.backupDatabase cfg m ts ns tmp) h = (r, tr) ->
  forall evs : Event,
    In evs tr -> is_size_call (ev_call evs) = true ->
    ev_call evs = RepoGetFileSize (BackupPath r)
                                  (String.eqb (Type_ cfg) DatabaseTypeMongoDB) /\
    (forall evb, In evb tr -> is_backup_call (ev_call evb) = true ->
                 ev_error evb = None) /\
    (forall e : error,
        ev_error evs = Some e ->
        Success r = false /\ Size r = "" /\
        Error_ r = Some (Errorf_w "backup created but failed to get size: " e)) /\
    (ev_error evs = None -> Success r = true /\ Size r = ev_output evs).
Proof.
  intros R. exact (wp_run_eq _ _ (measurement_wp cfg m ts ns tmp) o h r tr R).
Qed.

Lemma measurement_decides_the_outcome_witness :
  let r := fst (run (scripted unmeasurable)
                    (usecase.backupDatabase postgres_job BackupMethodDockerRun
                       "2024-03-09_14-05-07" "default" "/tmp/db-backups") []) in
  Success r = false /\ Size r = "" /\
  option_map Error (Error_ r)
  = Some "backup created but failed to get size: du: not found".
Proof.
  destruct (measurement_decides_the_outcome (scripted unmeasurable) [] postgres_job
              BackupMethodDockerRun "2024-03-09_14-05-07" "default" "/tmp/db-backups"
              _ _ eq_refl
              (Ev (RepoGetFileSize "backup/postgres/production_db_2024-03-09_14-05-07.sql"
                                   false)
                  ("", Some (sysError "du: not found")))) as (_ & _ & F & _).
  - vm_compute. do 5 right. left. reflexivity.
  - reflexivity.
  - destruct (F _ eq_refl) as (S & Z & E). cbv zeta.
    split; [exact S |]. split; [exact Z |]. exact (f_equal (option_map Error) E).
Defined.

(* ===================================================================== *)
(** ** What wiring keeps of a trace *)

Lemma wp_mono {A : Type} (p : Prog A) :
  forall (Q Q' : list Event -> A -> Prop),
    (forall tr a, Q tr a -> Q' tr a) -> wp p Q -> wp p Q'.
Proof.
  induction p as [a | c k IH]; intros Q Q' HQ H; simpl in *.
  - auto.
  - intros r. eapply IH; [| apply H]. intros tr a; apply HQ.
Qed.

(** A projection of the trace that sees neither the calls to the
    repository nor what the adapter does is the same before and after
    wiring. *)
Lemma wire_projection {A X : Type} (f : Event -> list X) :
  (forall (c : Call) (body : Prog (Resp c)),
      infrastructure.BackupRepositoryImpl c = Some body ->
      (forall r : Resp c, f (Ev c r) = []) /\
      wp body (fun tr _ => flat_map f tr = [])) ->
  forall (p : Prog A) (Q : list X -> A -> Prop),
    wp p (fun tr a => Q (flat_map f tr) a) ->
    wp (wire p) (fun tr a => Q (flat_map f tr) a).
Proof.
  intros Hf. induction p as [a | c k IH]; intros Q H; simpl in *.
  - exact H.
  - destruct (infrastructure.BackupRepositoryImpl c) as [body |] eqn:I.
    + destruct (Hf c body I) as [Hc Hb].
      apply wp_bind. eapply wp_mono; [| exact Hb].
      intros tr1 r E. cbv beta in E.
      eapply wp_mono; [| apply (IH r Q)].
      * intros tr2 a. cbv beta. now rewrite flat_map_app, E.
      * specialize (H r). rewrite Hc in H. exact H.
    + simpl. intros r. apply (IH r (fun l a => Q (f (Ev c r) ++ l)%list a)). apply H.
Qed.

(** The adapter prints nothing and never reads the clock. *)
Lemma adapter_is_silent {X : Type} (f : Event -> list X) :
  (forall ev, match ev_call ev with
              | TimeNow | PrintBackupStart _ _ _ | PrintBackupResult _ => True
              | _ => f ev = []
              end) ->
  forall (c : Call) (body : Prog (Resp c)),
    infrastructure.BackupRepositoryImpl c = Some body ->
    (forall r : Resp c, f (Ev c r) = []) /\
    wp body (fun tr _ => flat_map f tr = []).
Proof.
  intros Hf c body I.
  assert (forall c' (r : Resp c'),
             match c' with
             | TimeNow | PrintBackupStart _ _ _ | PrintBackupResult _ => True
             | _ => f (Ev c' r) = []
             end) as Hf' by (intros c' r; exact (Hf (Ev c' r))).
  destruct c; try discriminate I; injection I as <-.
  all: split; [intros r; exact (Hf' _ r) |].
  1-4: unfold infrastructure.BackupPostgres, infrastructure.BackupMySQL,
         infrastructure.BackupMariaDB, infrastructure.mysqldump,
         infrastructure.BackupMongoDB, infrastructure.dumpToFile,
         infrastructure.createCopyCleanup.
  1-4: method_switch method; adapter_symbolic; cbn [flat_map];
       repeat match goal with
              | |- context [flat_map _ _] => cbn [flat_map]
              | |- context [(?g (Ev ?c ?r) ++ _)%list] => rewrite (Hf' c r)
              end; reflexivity.
  unfold infrastructure.GetFileSize. destruct isDirectory; adapter_symbolic;
    repeat match goal with
           | |- context [strings.Fields ?x] => destruct (strings.Fields x)
           end;
    cbn [wp flat_map];
    repeat match goal with
           | |- context [flat_map _ _] => cbn [flat_map]
              | |- context [(?g (Ev ?c ?r) ++ _)%list] => rewrite (Hf' c r)
           end; reflexivity.
Qed.

Lemma job_announces_itself (cfg : DatabaseConfig) (m : BackupMethod) (ts ns tmp : string) :
  wp (usecase.backupDatabase cfg m ts ns tmp)
     (fun tr _ => flat_map start_of tr = [(cfg, m)]) /\
  wp (usecase.backupDatabase cfg m ts ns tmp)
     (fun tr _ => flat_map print_of tr = []).
Proof. split; explore cfg; reflexivity. Qed.

Lemma wired_job_announces_itself (cfg : DatabaseConfig) (m : BackupMethod)
      (ts ns tmp : string) :
  wp (wire (usecase.backupDatabase cfg m ts ns tmp))
     (fun tr _ => flat_map start_of tr = [(cfg, m)]) /\
  wp (wire (usecase.backupDatabase cfg m ts ns tmp))
     (fun tr _ => flat_map print_of tr = []).
Proof.
  destruct (job_announces_itself cfg m ts ns tmp) as [S P]. split.
  - apply (wire_projection start_of
             (adapter_is_silent start_of
                ltac:(intros [[] r]; exact I || reflexivity))
             _ (fun l _ => l = [(cfg, m)]) S).
  - apply (wire_projection print_of
             (adapter_is_silent print_of
                ltac:(intros [[] r]; exact I || reflexivity))
             _ (fun l _ => l = []) P).
Qed.

(* ===================================================================== *)
(** * The batch, job by job *)

Lemma run_print (o : Oracle) (r : BackupResult) (h : list Event) :
  run o (call (PrintBackupResult r)) h = (tt, [Ev (PrintBackupResult r) tt]).
Proof. cbn. destruct (o h (PrintBackupResult r)). reflexivity. Qed.

Lemma run_wire_print (o : Oracle) (r : BackupResult) (h : list Event) :
  run o (wire (call (PrintBackupResult r))) h = (tt, [Ev (PrintBackupResult r) tt]).
Proof. cbn. destruct (o h (PrintBackupResult r)). reflexivity. Qed.

Section Sequence.

Variable o : Oracle.
Variables (m : BackupMethod) (ts ns tmp : string).
Variable link : forall A : Type, Prog A -> Prog A.
Hypothesis link_bind : forall A B (p : Prog A) (f : A -> Prog B) h,
  run o (link _ (bind p f)) h =
  let (a, tr1) := run o (link _ p) h in
  let (b, tr2) := run o (link _ (f a)) (h ++ tr1) in
  (b, (tr1 ++ tr2)%list).
Hypothesis link_ret : forall A (a : A) h, run o (link _ (Ret a)) h = (a, []).
Hypothesis link_print : forall r h,
  run o (link _ (call (PrintBackupResult r))) h = (tt, [Ev (PrintBackupResult r) tt]).

(** The loop of [executeBackups] runs every job in its turn. *)
Lemma backupAll_in_turn : forall dbs results h,
  run o (link _ (usecase.backupAll dbs m ts ns tmp results)) h =
  let jobs := each_job_in_turn o link dbs m ts ns tmp h in
  ((results ++ map fst jobs)%list, batch_trace jobs).
Proof.
  induction dbs as [| cfg rest IH]; intros results h;
    cbn [usecase.backupAll each_job_in_turn].
  - rewrite link_ret. cbn. now rewrite app_nil_r.
  - rewrite link_bind.
    destruct (run o (link _ (usecase.backupDatabase cfg m ts ns tmp)) h) as [r tr1].
    rewrite link_bind, link_print, IH. cbn [fst snd map batch_trace flat_map].
    rewrite <- !app_assoc. reflexivity.
Qed.

(** What holds of every run of a job holds of every job of the batch. *)
Lemma each_job_satisfies (P : DatabaseConfig -> BackupResult * list Event -> Prop) :
  (forall cfg h, P cfg (run o (link _ (usecase.backupDatabase cfg m ts ns tmp)) h)) ->
  forall dbs h, Forall2 P dbs (each_job_in_turn o link dbs m ts ns tmp h).
Proof.
  intros HP. induction dbs as [| cfg rest IH]; intros h; cbn [each_job_in_turn].
  - constructor.
  - constructor; [apply HP | apply IH].
Qed.

End Sequence.


Lemma Forall2_keys (dbs : list DatabaseConfig) (jobs : list (BackupResult * list Event)) :
  Forall2 (fun cfg j => result_key (fst j) = job_key cfg) dbs jobs ->
  List.length (map fst jobs) = List.length dbs
  /\ map result_key (map fst jobs) = map job_key dbs.
Proof.
  induction 1 as [| cfg j dbs jobs K _ [L M]]; cbn; [split; reflexivity |].
  split; [now rewrite L | now rewrite K, M].
Qed.

Lemma Forall2_announced (m : BackupMethod) (dbs : list DatabaseConfig)
      (jobs : list (BackupResult * list Event)) :
  Forall2 (fun cfg j => started (snd j) = [(cfg, m)] /\ printed (snd j) = []) dbs jobs ->
  started (batch_trace jobs) = map (fun c => (c, m)) dbs
  /\ printed (batch_trace jobs) = map fst jobs.
Proof.
  unfold started, printed, batch_trace.
  induction 1 as [| cfg j dbs jobs [S P] _ [S' P']]; cbn [flat_map map];
    [split; reflexivity |].
  rewrite !flat_map_app, S, P, S', P'. cbn. split; reflexivity.
Qed.



(** C1. A batch runs every configured job in its turn, whatever the jobs
    before it returned: its result list and its events are those of the
    jobs run one after the other, each followed by the printing of its
    result.  So the list has one result per configured database, in the
    order of the configuration (the [i]-th result carries the type and the
    name of the [i]-th database), every job is started, once and in that
    order, and every returned result is printed.  This holds whatever the
    environment answers, that is, whichever jobs fail, for the use case
    against its ports and for the use case wired to
    [BackupRepositoryImpl]. *)
Theorem executeBackups_complete_and_ordered
        (o : Oracle) (h : list Event) (config : BackupConfig) :
  let ts := time.Format (Timestamp config) "2006-01-02_15-04-05" in
  let jobs link :=
    each_job_in_turn o link (Databases config) (Method config) ts
                     (K8sNamespace config) (TempDir config) h in
  let wired := run o (wire (usecase.executeBackups config)) h in
  let against_ports := run o (usecase.executeBackups config) h in
  (wired = (map fst (jobs (@wire)), batch_trace (jobs (@wire))) /\
   List.length (fst wired) = List.length (Databases config) /\
   map result_key (fst wired) = map job_key (Databases config) /\
   started (snd wired) = map (fun c => (c, Method config)) (Databases config) /\
   printed (snd wired) = fst wired) /\
  (against_ports = (map fst (jobs ports), batch_trace (jobs ports)) /\
   List.length (fst against_ports) = List.length (Databases config) /\
   map result_key (fst against_ports) = map job_key (Databases config) /\
   started (snd against_ports) = map (fun c => (c, Method config)) (Databases config) /\
   printed (snd against_ports) = fst against_ports).
Proof.
  intros ts jobs wired against_ports.
  assert (wired = (map fst (jobs (@wire)), batch_trace (jobs (@wire)))) as W.
  { unfold wired, usecase.executeBackups.
    exact (@backupAll_in_turn o (Method config) ts (K8sNamespace config) (TempDir config)
             (@wire) (fun A B p f h' => wire_bind o p f h') (fun A a h' => eq_refl)
             (run_wire_print o) (Databases config) [] h). }
  assert (against_ports = (map fst (jobs ports), batch_trace (jobs ports))) as P.
  { unfold against_ports, usecase.executeBackups.
    exact (@backupAll_in_turn o (Method config) ts (K8sNamespace config) (TempDir config)
             ports (fun A B p f h' => run_bind o p f h') (fun A a h' => eq_refl)
             (run_print o) (Databases config) [] h). }
  split.
  - split; [exact W |]. rewrite W. cbn [fst snd].
    pose proof (@each_job_satisfies o (Method config) ts (K8sNamespace config)
                  (TempDir config) (@wire)
                  (fun cfg j => result_key (fst j) = job_key cfg)
                  (fun cfg h' =>
                     wp_run _ _ (wire_result (fun r => result_key r = job_key cfg) _
                                   (backupDatabase_key cfg _ _ _ _)) o h')
                  (Databases config) h) as K.
    pose proof (@each_job_satisfies o (Method config) ts (K8sNamespace config)
                  (TempDir config) (@wire)
                  (fun cfg j => started (snd j) = [(cfg, Method config)]
                                /\ printed (snd j) = [])
                  (fun cfg h' =>
                     conj (wp_run _ _ (proj1 (wired_job_announces_itself cfg _ _ _ _)) o h')
                          (wp_run _ _ (proj2 (wired_job_announces_itself cfg _ _ _ _)) o h'))
                  (Databases config) h) as A.
    destruct (Forall2_keys _ _ K) as [L M].
    destruct (Forall2_announced _ _ _ A) as [S R].
    repeat split; assumption.
  - split; [exact P |]. rewrite P. cbn [fst snd].
    pose proof (@each_job_satisfies o (Method config) ts (K8sNamespace config)
                  (TempDir config) ports
                  (fun cfg j => result_key (fst j) = job_key cfg)
                  (fun cfg h' => wp_run _ _ (backupDatabase_key cfg _ _ _ _) o h')
                  (Databases config) h) as K.
    pose proof (@each_job_satisfies o (Method config) ts (K8sNamespace config)
                  (TempDir config) ports
                  (fun cfg j => started (snd j) = [(cfg, Method config)]
                                /\ printed (snd j) = [])
                  (fun cfg h' =>
                     conj (wp_run _ _ (proj1 (job_announces_itself cfg _ _ _ _)) o h')
                          (wp_run _ _ (proj2 (job_announces_itself cfg _ _ _ _)) o h'))
                  (Databases config) h) as A.
    destruct (Forall2_keys _ _ K) as [L M].
    destruct (Forall2_announced _ _ _ A) as [S R].
    repeat split; assumption.
Qed.

(** A batch whose first job fails: the dump of the postgres job fails,
    and the mongodb job is run all the same, and succeeds. *)
Lemma batch_survives_a_failed_job :
  let batch := run (scripted sql_dump_fails) (wire (usecase.executeBackups two_jobs)) [] in
  map Success (fst batch) = [false; true] /\
  map (fun r => option_map Error (Error_ r)) (fst batch)
  = [Some "docker exec failed: exit status 1"; None] /\
  map (fun c => match c with
                | CmdOutput argv | CmdRun argv => firstn 2 argv
                | _ => []
                end) (filter is_spawn (calls (snd batch)))
  = [["docker"; "exec"]; ["docker"; "exec"]; ["docker"; "cp"]; ["docker"; "exec"];
     ["du"; "-sh"]].
Proof. vm_compute. repeat split. Qed.

(* ===================================================================== *)
(** * The destination of every job of a batch *)









(* ===================================================================== *)
(** ** One destination per second *)

Lemma digit_inj (a b : Z) :
  0 <= a <= 9 -> 0 <= b <= 9 -> time.digit a = time.digit b -> a = b.
Proof.
  intros A B E. unfold time.digit in E.
  apply (f_equal nat_of_ascii) in E.
  rewrite !nat_ascii_embedding in E by lia. lia.
Qed.

Lemma two_digits_inj (x y : Z) :
  0 <= x <= 99 -> 0 <= y <= 99 ->
  time.digit (x / 10) = time.digit (y / 10) ->
  time.digit (x mod 10) = time.digit (y mod 10) -> x = y.
Proof.
  intros X Y H L.
  apply digit_inj in H; [| Z.div_mod_to_equations; lia ..].
  apply digit_inj in L; [| Z.div_mod_to_equations; lia ..].
  rewrite (Z.div_mod x 10), (Z.div_mod y 10) by lia. now rewrite H, L.
Qed.

Lemma four_digits_inj (x y : Z) :
  0 <= x <= 9999 -> 0 <= y <= 9999 ->
  time.digit (x / 100 / 10) = time.digit (y / 100 / 10) ->
  time.digit (x / 100 mod 10) = time.digit (y / 100 mod 10) ->
  time.digit (x mod 100 / 10) = time.digit (y mod 100 / 10) ->
  time.digit (x mod 100 mod 10) = time.digit (y mod 100 mod 10) -> x = y.
Proof.
  intros X Y A B C D.
  assert (x / 100 = y / 100) as H
      by (apply two_digits_inj; trivial; Z.div_mod_to_equations; lia).
  assert (x mod 100 = y mod 100) as L
      by (apply two_digits_inj; trivial; Z.div_mod_to_equations; lia).
  rewrite (Z.div_mod x 100), (Z.div_mod y 100) by lia. now rewrite H, L.
Qed.

(** X9. The timestamp of a batch determines its date and time to the
    second: two calendar dates with the same timestamp are equal. *)
Theorem Format_is_injective (t1 t2 : time.Time) :
  calendar t1 -> calendar t2 ->
  time.Format t1 "2006-01-02_15-04-05" = time.Format t2 "2006-01-02_15-04-05" ->
  t1 = t2.
Proof.
  intros (Y1 & Mo1 & D1 & H1 & Mi1 & S1) (Y2 & Mo2 & D2 & H2 & Mi2 & S2) E.
  rewrite !Format_layout in E.
  rewrite !appendInt_4, !appendInt_2 in E by lia.
  cbn [append] in E.
  injection E as y1 y2 y3 y4 m1 m2 d1 d2 h1 h2 n1 n2 s1 s2.
  destruct t1, t2; cbn [time.Year time.Month time.Day time.Hour time.Minute time.Second] in *.
  f_equal;
    first [ solve [apply four_digits_inj; trivial; lia]
          | solve [apply two_digits_inj; trivial; lia] ].
Qed.

Lemma Format_is_injective_witness :
  time.mkTime 2024 3 9 14 5 7 = march_9th.
Proof.
  apply Format_is_injective; [unfold calendar; cbn; lia .. | reflexivity].
Defined.

Lemma append_cancel_l (a x y : string) : a ++ x = a ++ y -> x = y.
Proof.
  induction a as [| c a IH]; cbn [append]; intros E; [exact E |].
  injection E as E. now apply IH.
Qed.

Lemma append_cancel_sql (x y : string) :
  String.length x = String.length y -> x ++ ".sql" = y ++ ".sql" -> x = y.
Proof.
  revert y. induction x as [| c x IH]; intros [| d y] L E; cbn in *; try discriminate L.
  - reflexivity.
  - injection E as -> E. f_equal. apply IH; [lia | exact E].
Qed.

Lemma Format_length_19 (t : time.Time) :
  calendar t -> String.length (time.Format t "2006-01-02_15-04-05") = 19%nat.
Proof.
  intros (Y & Mo & D & H & Mi & S).
  rewrite Format_layout, appendInt_4, !appendInt_2 by lia. reflexivity.
Qed.

(** X10. Two jobs for the same database of a known type, whose name
    holds no slash, run at different calendar dates and times, never have
    the same destination path: a later batch does not write over the
    backup of an earlier one. *)
Theorem later_batch_has_another_destination
        (o1 o2 : Oracle) (h1 h2 : list Event) (cfg : DatabaseConfig) (m : BackupMethod)
        (t1 t2 : time.Time) (ns tmp : string)
        (r1 r2 : BackupResult) (tr1 tr2 : list Event) :
  calendar t1 -> calendar t2 -> t1 <> t2 ->
  strings.ContainsByte "/" (Database cfg) = false ->
  run o1 (usecase.backupDatabase cfg m (time.Format t1 "2006-01-02_15-04-05") ns tmp) h1
  = (r1, tr1) ->
  run o2 (usecase.backupDatabase cfg m (time.Format t2 "2006-01-02_15-04-05") ns tmp) h2
  = (r2, tr2) ->
  forall ev1 ev2 : Event,
    In ev1 tr1 -> is_backup_call (ev_call ev1) = true ->
    In ev2 tr2 -> is_backup_call (ev_call ev2) = true ->
    BackupPath r1 <> BackupPath r2.
Proof.
  intros C1 C2 N D R1 R2 ev1 ev2 I1 B1 I2 B2 E.
  apply N, Format_is_injective; trivial.
  pose proof (Format_length_19 _ C1) as L1. pose proof (Format_length_19 _ C2) as L2.
  destruct (destination_path_of_timestamp o1 h1 cfg m _ ns tmp r1 tr1
              (Format_no_slash t1) ltac:(lia) R1 ev1 I1 B1) as (_ & F1 & M1).
  destruct (destination_path_of_timestamp o2 h2 cfg m _ ns tmp r2 tr2
              (Format_no_slash t2) ltac:(lia) R2 ev2 I2 B2) as (_ & F2 & M2).
  destruct (produces_file (Type_ cfg)) eqn:P.
  - destruct (F1 eq_refl) as [_ P1]. destruct (F2 eq_refl) as [_ P2].
    rewrite (P1 D), (P2 D) in E.
    do 5 apply append_cancel_l in E.
    apply append_cancel_sql in E; [exact E | lia].
  - assert (Type_ cfg = DatabaseTypeMongoDB) as T.
    { clear - P I1 B1 R1.
      revert r1 tr1 R1 ev1 I1 B1 P.
      apply (wp_run_eq (usecase.backupDatabase cfg m _ ns tmp)
               (fun tr _ => forall ev1 : Event,
                    In ev1 tr -> is_backup_call (ev_call ev1) = true ->
                    produces_file (Type_ cfg) = false ->
                    Type_ cfg = DatabaseTypeMongoDB)).
      explore cfg; intros ev' I' B' P'; member; cbn [ev_call is_backup_call] in B';
        try discriminate B';
        unfold produces_file in P'; rewrite ?Epg, ?Emy, ?Ema in P';
        try discriminate P'; now apply String.eqb_eq. }
    rewrite (M1 T), (M2 T) in E.
    now apply append_cancel_l in E.
Qed.

Lemma later_batch_has_another_destination_witness :
  let job t := usecase.backupDatabase postgres_job BackupMethodDockerRun
                 (time.Format t "2006-01-02_15-04-05") "default" "/tmp/db-backups" in
  BackupPath (fst (run (scripted all_good) (job march_9th) []))
  <> BackupPath (fst (run (scripted all_good) (job (time.mkTime 2024 3 9 14 5 8)) [])).
Proof.
  refine (later_batch_has_another_destination (scripted all_good) (scripted all_good)
            [] [] postgres_job BackupMethodDockerRun march_9th (time.mkTime 2024 3 9 14 5 8)
            "default" "/tmp/db-backups" _ _ _ _ _ _ _ eq_refl eq_refl eq_refl
            (Ev (RepoBackupPostgres postgres_job BackupMethodDockerRun
                   "backup/postgres/production_db_2024-03-09_14-05-07.sql" "default") None)
            (Ev (RepoBackupPostgres postgres_job BackupMethodDockerRun
                   "backup/postgres/production_db_2024-03-09_14-05-08.sql" "default") None)
            _ eq_refl _ eq_refl).
  - unfold calendar; cbn; lia.
  - unfold calendar; cbn; lia.
  - discriminate.
  - vm_compute. do 3 right. left. reflexivity.
  - vm_compute. do 3 right. left. reflexivity.
Defined.
